(** * Local process tracking of the Sarek engine

    A shallow embedding of
    [ngi_pipeline/engines/sarek/local_process_tracking.py]:
    the reconstruction of a project object from fastq file paths, the
    status check of a tracked analysis, the guarded removal from the
    tracking database and the loop that updates Charon. *)

From Stdlib Require Import String Ascii List Bool Arith ZArith Lia Permutation.
Import ListNotations.

Local Open Scope string_scope.
Local Open Scope list_scope.

(** ** Python strings and [posixpath] *)

Module PosixPath.

(** The separator of [posixpath]. *)
Definition sep : ascii := "/"%char.

Definition is_sep (c : ascii) : bool := Ascii.eqb c sep.

(** [p.rfind(sep) + 1], scanning [p] from index [i]; [acc] is the value for
    the separators seen so far (0 when there is none, as [rfind] gives -1). *)
Fixpoint rfind_sep_from (i acc : nat) (p : string) : nat :=
  match p with
  | EmptyString => acc
  | String c r => rfind_sep_from (S i) (if is_sep c then S i else acc) r
  end.

Definition rfind_sep_succ (p : string) : nat := rfind_sep_from 0 0 p.

(** The slices [p[:i]] and [p[i:]]. *)
Fixpoint slice_to (i : nat) (p : string) : string :=
  match i, p with
  | S j, String c r => String c (slice_to j r)
  | _, _ => EmptyString
  end.

Fixpoint slice_from (i : nat) (p : string) : string :=
  match i, p with
  | S j, String _ r => slice_from j r
  | _, _ => p
  end.

(** [head == sep*len(head)]: every character of [head] is the separator. *)
Fixpoint all_sep (s : string) : bool :=
  match s with
  | EmptyString => true
  | String c r => is_sep c && all_sep r
  end.

(** [s.rstrip(sep)] *)
Fixpoint rstrip_sep (s : string) : string :=
  match s with
  | EmptyString => EmptyString
  | String c r =>
      match rstrip_sep r with
      | EmptyString => if is_sep c then EmptyString else String c EmptyString
      | r' => String c r'
      end
  end.

Definition is_empty (s : string) : bool :=
  match s with EmptyString => true | _ => false end.

(** [if head and head != sep*len(head): head = head.rstrip(sep)] *)
Definition strip_head (head : string) : string :=
  if negb (is_empty head) && negb (all_sep head) then rstrip_sep head else head.

(** [posixpath.split] *)
Definition split (p : string) : string * string :=
  let i := rfind_sep_succ p in
  let head := slice_to i p in
  let tail := slice_from i p in
  (strip_head head, tail).

(** [posixpath.dirname] *)
Definition dirname (p : string) : string :=
  let i := rfind_sep_succ p in
  let head := slice_to i p in
  strip_head head.

(** A path segment: a string without separator. *)
Fixpoint no_sep (s : string) : bool :=
  match s with
  | EmptyString => true
  | String c r => negb (is_sep c) && no_sep r
  end.

(** A name usable as a directory entry: not empty and without separator. *)
Definition is_name (s : string) : bool := negb (is_empty s) && no_sep s.

(** A directory path in normal form: it has a character other than the
    separator and does not end in a separator. *)
Definition clean (d : string) : Prop :=
  all_sep d = false /\ rstrip_sep d = d.

(** [d/seg] *)
Definition join (d seg : string) : string := d ++ String sep seg.

End PosixPath.

(** ** The project hierarchy *)

(** Modelled from the spec: the classes [NGIProject], [NGISample],
    [NGILibraryPrep] and [NGISeqRun] of [ngi_pipeline.conductor.classes] are
    not among the sources. A project is a tree project, samples, libpreps,
    seqruns, fastq file names; the sub-items of a node are kept in insertion
    order, their names are unique among siblings, and a node that is asked
    to add a sub-item under an existing name hands out the existing one.
    The constructor arguments are stored in the order of the call in
    [_project_from_fastq_file_paths]. *)
Module Conductor.

Record NGISeqRun := mkSeqRun {
  run_name : string;
  run_dirname : string;
  run_fastq_files : list string
}.

Record NGILibraryPrep := mkLibraryPrep {
  lib_name : string;
  lib_dirname : string;
  lib_seqruns : list NGISeqRun
}.

Record NGISample := mkSample {
  samp_name : string;
  samp_dirname : string;
  samp_libpreps : list NGILibraryPrep
}.

Record NGIProject := mkProject {
  proj_name : string;
  proj_dirname : string;
  proj_project_id : string;
  proj_base_path : string;
  proj_samples : list NGISample
}.

(** The sub-item called [name] is looked up; a new one, [fresh], is appended
    when there is none. The Python method returns a reference to the
    sub-item that the caller then mutates: [then_do] is that mutation,
    applied in place. *)
Fixpoint add_subitem {A : Type} (name_of : A -> string) (name : string)
    (fresh : A) (then_do : A -> A) (items : list A) : list A :=
  match items with
  | [] => [then_do fresh]
  | x :: rest =>
      if String.eqb (name_of x) name then then_do x :: rest
      else x :: add_subitem name_of name fresh then_do rest
  end.

Definition add_fastq_files (fastq : string) (r : NGISeqRun) : NGISeqRun :=
  mkSeqRun (run_name r) (run_dirname r) (run_fastq_files r ++ [fastq]).

Definition add_seqrun (name dirname : string) (then_do : NGISeqRun -> NGISeqRun)
    (l : NGILibraryPrep) : NGILibraryPrep :=
  mkLibraryPrep (lib_name l) (lib_dirname l)
    (add_subitem run_name name (mkSeqRun name dirname []) then_do
       (lib_seqruns l)).

Definition add_libprep (name dirname : string)
    (then_do : NGILibraryPrep -> NGILibraryPrep) (s : NGISample) : NGISample :=
  mkSample (samp_name s) (samp_dirname s)
    (add_subitem lib_name name (mkLibraryPrep name dirname []) then_do
       (samp_libpreps s)).

Definition add_sample (name dirname : string) (then_do : NGISample -> NGISample)
    (p : NGIProject) : NGIProject :=
  mkProject (proj_name p) (proj_dirname p) (proj_project_id p)
    (proj_base_path p)
    (add_subitem samp_name name (mkSample name dirname []) then_do
       (proj_samples p)).

End Conductor.
Import Conductor.

(** ** [_project_from_fastq_file_paths] *)

(** The local variables of one turn of the loop over the fastq file paths. *)
Record PathParts := mkPathParts {
  fastq_file_name : string;
  seqrun_path : string;
  seqrun_name : string;
  libprep_path : string;
  libprep_name : string;
  sample_path : string;
  sample_name : string;
  project_path : string;
  project_name : string;
  project_data_path : string;
  project_base_path : string
}.

Definition split_fastq_file_path (fastq_file_path : string) : PathParts :=
  let '(seqrun_path, fastq_file_name) := PosixPath.split fastq_file_path in
  let '(libprep_path, seqrun_name) := PosixPath.split seqrun_path in
  let '(sample_path, libprep_name) := PosixPath.split libprep_path in
  let '(project_path, sample_name) := PosixPath.split sample_path in
  let '(project_data_path, project_name) := PosixPath.split project_path in
  let project_base_path := PosixPath.dirname project_data_path in
  mkPathParts fastq_file_name seqrun_path seqrun_name libprep_path libprep_name
    sample_path sample_name project_path project_name project_data_path
    project_base_path.

(** [project_obj or NGIProject(...)]: [None] is false, an object is true. *)
Definition py_or_project (project_obj : option NGIProject)
    (otherwise : NGIProject) : NGIProject :=
  match project_obj with
  | Some p => p
  | None => otherwise
  end.

(** The four [add_...] calls of a turn of the loop: the sample, the libprep
    and the seqrun are looked up or created, and the file name is added to
    the seqrun. *)
Definition add_parts (parts : PathParts) (project_obj : NGIProject)
    : NGIProject :=
  add_sample (sample_name parts) (sample_name parts)
    (add_libprep (libprep_name parts) (libprep_name parts)
       (add_seqrun (seqrun_name parts) (seqrun_name parts)
          (add_fastq_files (fastq_file_name parts))))
    project_obj.

(** [NGIProject(project_name, project_name, project_name,
    project_base_path)] *)
Definition new_project (parts : PathParts) : NGIProject :=
  mkProject (project_name parts) (project_name parts) (project_name parts)
    (project_base_path parts) [].

(** The body of the loop: the value of [project_obj] after the turn. *)
Definition add_fastq_file_path (project_obj : option NGIProject)
    (fastq_file_path : string) : option NGIProject :=
  let parts := split_fastq_file_path fastq_file_path in
  let project_obj := py_or_project project_obj (new_project parts) in
  Some (add_parts parts project_obj).

(** The function returns [project_obj], which is [None] when the loop made
    no turn. *)
Definition _project_from_fastq_file_paths (fastq_file_paths : list string)
    : option NGIProject :=
  fold_left add_fastq_file_path fastq_file_paths None.

(** Name sets of a hierarchy. *)
Definition sample_names (p : NGIProject) : list string :=
  map samp_name (proj_samples p).

Definition find_by_name {A : Type} (name_of : A -> string) (name : string)
    (items : list A) : option A :=
  find (fun x => String.eqb (name_of x) name) items.

Definition libprep_names (p : NGIProject) (sample : string) : list string :=
  match find_by_name samp_name sample (proj_samples p) with
  | Some s => map lib_name (samp_libpreps s)
  | None => []
  end.

Definition seqrun_names (p : NGIProject) (sample libprep : string)
    : list string :=
  match find_by_name samp_name sample (proj_samples p) with
  | Some s =>
      match find_by_name lib_name libprep (samp_libpreps s) with
      | Some l => map run_name (lib_seqruns l)
      | None => []
      end
  | None => []
  end.

Definition fastq_file_names (p : NGIProject) (sample libprep seqrun : string)
    : list string :=
  match find_by_name samp_name sample (proj_samples p) with
  | Some s =>
      match find_by_name lib_name libprep (samp_libpreps s) with
      | Some l =>
          match find_by_name run_name seqrun (lib_seqruns l) with
          | Some r => run_fastq_files r
          | None => []
          end
      | None => []
      end
  | None => []
  end.

(** The paths that put a file under a given seqrun of a given libprep of a
    given sample. *)
Definition under_seqrun (sample libprep seqrun : string) (parts : PathParts)
    : bool :=
  String.eqb (sample_name parts) sample
  && String.eqb (libprep_name parts) libprep
  && String.eqb (seqrun_name parts) seqrun.

(** The turns of the loop over [paths] once the project object exists. *)
Definition add_paths (paths : list string) (project_obj : NGIProject)
    : NGIProject :=
  fold_left (fun p path => add_parts (split_fastq_file_path path) p) paths
    project_obj.

(** The names of the files that [paths] put under a seqrun, in the order
    of [paths]. *)
Definition files_under (sample libprep seqrun : string) (paths : list string)
    : list string :=
  flat_map
    (fun path =>
       let parts := split_fastq_file_path path in
       if under_seqrun sample libprep seqrun parts
       then [fastq_file_name parts] else [])
    paths.

(** Two hierarchies with the same sample names, the same libprep names
    under each sample and the same seqrun names under each libprep; the
    file names under each seqrun are the same up to their order. *)
Definition same_name_sets (p q : NGIProject) : Prop :=
  (forall s, In s (sample_names p) <-> In s (sample_names q)) /\
  (forall s l, In l (libprep_names p s) <-> In l (libprep_names q s)) /\
  (forall s l r, In r (seqrun_names p s l) <-> In r (seqrun_names q s l)) /\
  (forall s l r,
     Permutation (fastq_file_names p s l r) (fastq_file_names q s l r)).

Definition same_name_sets_opt (p q : option NGIProject) : Prop :=
  match p, q with
  | Some p, Some q => same_name_sets p q
  | None, None => True
  | _, _ => False
  end.

(** ** Tracked analyses, statuses and collaborators *)

(** Modelled from the spec: the analysis objects handed out by the tracking
    connector ([ngi_pipeline.engines.sarek.database], not among the
    sources) carry the attributes that this module reads. A Python
    identifier is an integer or [None]. *)
Module Analysis.

Record t := mk {
  project_id : string;
  sample_id : string;
  engine : string;
  workflow : string;
  project_base_path : string;
  process_id : option Z;
  slurm_job_id : option Z
}.

Definition id_eqb (a b : option Z) : bool :=
  match a, b with
  | Some m, Some n => Z.eqb m n
  | None, None => true
  | _, _ => false
  end.

(** Two analysis objects are the same record of the tracking database. *)
Definition eqb (a b : t) : bool :=
  String.eqb (project_id a) (project_id b)
  && String.eqb (sample_id a) (sample_id b)
  && String.eqb (engine a) (engine b)
  && String.eqb (workflow a) (workflow b)
  && String.eqb (project_base_path a) (project_base_path b)
  && id_eqb (process_id a) (process_id b)
  && id_eqb (slurm_job_id a) (slurm_job_id b).

End Analysis.

(** Modelled from the spec: the status classes of
    [ngi_pipeline.engines.sarek.process] are not among the sources; the
    outcome of a probe is one of three values, of which the source names
    [ProcessRunning]. *)
Inductive ProcessOutcome :=
  | ProcessRunning
  | FinishedSuccessfully
  | FinishedWithError.

Definition outcome_eqb (a b : ProcessOutcome) : bool :=
  match a, b with
  | ProcessRunning, ProcessRunning => true
  | FinishedSuccessfully, FinishedSuccessfully => true
  | FinishedWithError, FinishedWithError => true
  | _, _ => false
  end.

(** The two classes a probe is called on. *)
Inductive StatusType := ProcessStatus | JobStatus.

(** Python exceptions: the two that this module can raise itself, and the
    ones that come out of a collaborator. *)
Inductive exn :=
  | TypeError
  | IndexError
  | CollaboratorError (what : string).

Inductive result (A : Type) :=
  | Returned (a : A)
  | Raised (e : exn).
Arguments Returned {A} a.
Arguments Raised {A} e.

(** What the function writes to the log. *)
Inductive LogMsg :=
  | LogUpdating
  | LogChecking (a : Analysis.t)
  | LogStatus (is_process : bool) (id : option Z) (s : ProcessOutcome)
  | LogRemoving (not_removing : bool).

(** The calls that leave the module, in the order they are made. *)
Inductive Event :=
  | EvLog (m : LogMsg)
  | EvProbe (t : StatusType) (id : option Z) (exit_code_path : string)
      (r : result ProcessOutcome)
  | EvFastqFiles (tsv_file_path : string) (r : result (list string))
  | EvPublish (project_id sample_id status : string)
      (restrict_to_libpreps : list string)
      (restrict_to_seqruns : list (string * list string))
      (r : result unit)
  | EvRemove (a : Analysis.t).

(** The collaborators of the module, none of which is among the sources.
    The path conventions and the translation of a status are functions of
    their arguments; a probe, the reading of a TSV file and the update of
    Charon answer according to the world outside, which is given to them as
    the calls made so far. Each of them may raise. *)
Record Collaborators := {
  (* SarekAnalysis.get_analysis_type_for_workflow(workflow)
       .sample_analysis_exit_code_path(base_path, project_id, sample_id) *)
  sample_analysis_exit_code_path :
    string -> string -> string -> string -> result string;
  (* ... .sample_analysis_tsv_file(base_path, project_id, sample_id) *)
  sample_analysis_tsv_file :
    string -> string -> string -> string -> result string;
  (* ... .fastq_files_from_tsv_file(tsv_file_path) *)
  fastq_files_from_tsv_file :
    list Event -> string -> string -> result (list string);
  (* status_type.get_type_from_processid_and_exit_code_path(id, path) *)
  get_type_from_processid_and_exit_code_path :
    list Event -> StatusType -> option Z -> string -> result ProcessOutcome;
  (* charon_connector.analysis_status_from_process_status(process_status) *)
  analysis_status_from_process_status : ProcessOutcome -> result string;
  (* charon_connector.set_sample_analysis_status(...) *)
  set_sample_analysis_status :
    list Event -> string -> string -> string -> list string ->
    list (string * list string) -> result unit
}.

(** Modelled from the spec: the tracking database holds the tracked
    analyses; [tracked_analyses] lists them and [remove_analysis] of the
    connector deletes a record, which is no error when it is absent. *)
Record State := mkState {
  store : list Analysis.t;
  calls : list Event
}.

(** ** A state and exception monad *)

Definition M (A : Type) : Type := State -> State * result A.

Definition ret {A : Type} (a : A) : M A := fun st => (st, Returned a).

Definition bind {A B : Type} (c : M A) (k : A -> M B) : M B :=
  fun st =>
    match c st with
    | (st', Returned a) => k a st'
    | (st', Raised e) => (st', Raised e)
    end.

Notation "x <- c ;; k" := (bind c (fun x => k))
  (at level 61, c at next level, right associativity).
Notation "c ;;; k" := (bind c (fun _ => k))
  (at level 61, right associativity).

(** A value or an exception computed without effect. *)
Definition lift {A : Type} (r : result A) : M A := fun st => (st, r).

Definition emit (e : Event) : M unit :=
  fun st => (mkState (store st) (calls st ++ [e]), Returned tt).

(** A call whose answer depends on the calls made so far, and is recorded. *)
Definition call {A : Type} (answer : list Event -> result A)
    (record : result A -> Event) : M A :=
  fun st =>
    let r := answer (calls st) in
    (mkState (store st) (calls st ++ [record r]), r).

Definition log_debug (m : LogMsg) : M unit := emit (EvLog m).

(** ** Python operators *)

(** [a or b] on identifiers: the integer 0 and [None] are false. *)
Definition py_or_id (a b : option Z) : option Z :=
  match a with
  | Some n => if Z.eqb n 0 then b else Some n
  | None => b
  end.

Definition is_not_None {A : Type} (a : option A) : bool :=
  match a with Some _ => true | None => false end.

(** [l.pop()]: the last element, [IndexError] on the empty list. *)
Fixpoint pop {A : Type} (l : list A) : result A :=
  match l with
  | [] => Raised IndexError
  | [x] => Returned x
  | _ :: r => pop r
  end.

(** [d[k] = v] on a dictionary kept in insertion order. *)
Fixpoint dict_set {V : Type} (d : list (string * V)) (k : string) (v : V)
    : list (string * V) :=
  match d with
  | [] => [(k, v)]
  | (k', v') :: r =>
      if String.eqb k' k then (k', v) :: r else (k', v') :: dict_set r k v
  end.

(** Iterating over a project object yields its samples; over [None] it is
    a [TypeError]. *)
Definition iter_project (project_obj : option NGIProject)
    : result (list NGISample) :=
  match project_obj with
  | Some p => Returned (proj_samples p)
  | None => Raised TypeError
  end.

(** ** The functions of the module *)

Section Workflow.

Variable env : Collaborators.

(** [tracking_connector.remove_analysis(analysis)] *)
Definition removed_from (analysis : Analysis.t) (st : State) : State :=
  mkState (filter (fun a => negb (Analysis.eqb a analysis)) (store st))
    (calls st ++ [EvRemove analysis]).

Definition tracking_remove (analysis : Analysis.t) : M unit :=
  fun st => (removed_from analysis st, Returned tt).

(** [tracking_connector.tracked_analyses()] *)
Definition tracked_analyses : M (list Analysis.t) :=
  fun st => (st, Returned (store st)).

Definition status_type_of (analysis : Analysis.t) : StatusType :=
  if is_not_None (Analysis.process_id analysis) then ProcessStatus
  else JobStatus.

Definition get_analysis_status (analysis : Analysis.t) : M ProcessOutcome :=
  let status_type := status_type_of analysis in
  let processid_or_jobid :=
    py_or_id (Analysis.process_id analysis) (Analysis.slurm_job_id analysis) in
  exit_code_path <-
    lift (sample_analysis_exit_code_path env
            (Analysis.workflow analysis)
            (Analysis.project_base_path analysis)
            (Analysis.project_id analysis)
            (Analysis.sample_id analysis)) ;;
  call
    (fun history =>
       get_type_from_processid_and_exit_code_path env history status_type
         processid_or_jobid exit_code_path)
    (EvProbe status_type processid_or_jobid exit_code_path).

Definition remove_analysis (analysis : Analysis.t)
    (process_status : ProcessOutcome) (force : bool) : M unit :=
  if outcome_eqb process_status ProcessRunning && negb force then ret tt
  else tracking_remove analysis.

Definition project_from_analysis (analysis : Analysis.t)
    : M (option NGIProject) :=
  tsv_file_path <-
    lift (sample_analysis_tsv_file env
            (Analysis.workflow analysis)
            (Analysis.project_base_path analysis)
            (Analysis.project_id analysis)
            (Analysis.sample_id analysis)) ;;
  fastq_file_paths <-
    call
      (fun history =>
         fastq_files_from_tsv_file env history (Analysis.workflow analysis)
           tsv_file_path)
      (EvFastqFiles tsv_file_path) ;;
  ret (_project_from_fastq_file_paths fastq_file_paths).

(** The dictionary [restrict_to_seqruns] built from a sample object. *)
Definition restrict_to_seqruns_of (sample_obj : NGISample)
    : list (string * list string) :=
  fold_left
    (fun d libprep_obj =>
       dict_set d (lib_name libprep_obj)
         (map run_name (lib_seqruns libprep_obj)))
    (samp_libpreps sample_obj) [].

(** The body of the loop over the tracked analyses. *)
Definition update_analysis (analysis : Analysis.t) : M unit :=
  log_debug (LogChecking analysis) ;;;
  process_status <- get_analysis_status analysis ;;
  log_debug
    (LogStatus (is_not_None (Analysis.process_id analysis))
       (py_or_id (Analysis.process_id analysis)
          (Analysis.slurm_job_id analysis))
       process_status) ;;;
  project_obj <- project_from_analysis analysis ;;
  samples <- lift (iter_project project_obj) ;;
  sample_obj <-
    lift (pop (filter
                 (fun x => String.eqb (samp_name x)
                             (Analysis.sample_id analysis))
                 samples)) ;;
  let restrict_to_seqruns := restrict_to_seqruns_of sample_obj in
  let restrict_to_libpreps := map fst restrict_to_seqruns in
  status <- lift (analysis_status_from_process_status env process_status) ;;
  call
    (fun history =>
       set_sample_analysis_status env history
         (Analysis.project_id analysis) (Analysis.sample_id analysis)
         status restrict_to_libpreps restrict_to_seqruns)
    (EvPublish (Analysis.project_id analysis) (Analysis.sample_id analysis)
       status restrict_to_libpreps restrict_to_seqruns) ;;;
  log_debug (LogRemoving (outcome_eqb process_status ProcessRunning)) ;;;
  remove_analysis analysis process_status false.

(** [for analysis in analyses: body] *)
Fixpoint for_each (analyses : list Analysis.t) (body : Analysis.t -> M unit)
    : M unit :=
  match analyses with
  | [] => ret tt
  | analysis :: rest => body analysis ;;; for_each rest body
  end.

Definition update_charon_with_local_jobs_status : M unit :=
  log_debug LogUpdating ;;;
  analyses <- tracked_analyses ;;
  for_each analyses update_analysis.

End Workflow.

(** ** Reading a trace of calls *)

(** The analyses handed to [tracking_connector.remove_analysis], in order. *)
Definition removals (t : list Event) : list Analysis.t :=
  flat_map (fun e => match e with EvRemove a => [a] | _ => [] end) t.

(** The arguments of the probes: class, identifier, exit code path. *)
Definition probe_calls (t : list Event)
    : list (StatusType * option Z * string) :=
  flat_map
    (fun e =>
       match e with
       | EvProbe ty id path _ => [(ty, id, path)]
       | _ => []
       end) t.

(** The statuses that the probes returned. *)
Definition probed_statuses (t : list Event) : list ProcessOutcome :=
  flat_map
    (fun e =>
       match e with
       | EvProbe _ _ _ (Returned s) => [s]
       | _ => []
       end) t.

(** The calls made between two states. *)
Definition new_calls (st st' : State) : list Event :=
  skipn (length (calls st)) (calls st').

(** What the path convention answers when it is asked with the workflow,
    the project base path, the project id and the sample id of an
    analysis. *)
Definition exit_code_path_of (env : Collaborators) (analysis : Analysis.t)
    : result string :=
  sample_analysis_exit_code_path env (Analysis.workflow analysis)
    (Analysis.project_base_path analysis) (Analysis.project_id analysis)
    (Analysis.sample_id analysis).

(** The calls of the status check and of the reconstruction of the
    project: neither an update of Charon nor a removal. *)
Definition is_quiet (e : Event) : bool :=
  match e with
  | EvPublish _ _ _ _ _ _ => false
  | EvRemove _ => false
  | _ => true
  end.

(** The calls from the first update of Charon or removal on. *)
Fixpoint after_quiet (t : list Event) : list Event :=
  match t with
  | [] => []
  | e :: rest => if is_quiet e then after_quiet rest else t
  end.

(** How a turn of the loop over the tracked analyses ends, given the
    statuses that were probed in it: the calls from the update of Charon
    on, the result of the turn and whether the analysis was removed. *)
Inductive iteration_end (a : Analysis.t)
    : list ProcessOutcome -> list Event -> result unit -> bool -> Prop :=
  | end_before_publish probed e :
      iteration_end a probed [] (Raised e) false
  | end_publish_failed probed status libpreps seqruns e :
      iteration_end a probed
        [EvPublish (Analysis.project_id a) (Analysis.sample_id a) status
           libpreps seqruns (Raised e)]
        (Raised e) false
  | end_retained status libpreps seqruns :
      iteration_end a [ProcessRunning]
        [EvPublish (Analysis.project_id a) (Analysis.sample_id a) status
           libpreps seqruns (Returned tt);
         EvLog (LogRemoving true)]
        (Returned tt) false
  | end_removed s status libpreps seqruns :
      s <> ProcessRunning ->
      iteration_end a [s]
        [EvPublish (Analysis.project_id a) (Analysis.sample_id a) status
           libpreps seqruns (Returned tt);
         EvLog (LogRemoving false);
         EvRemove a]
        (Returned tt) true.

(** The tracked analyses whose probed status is not [ProcessRunning]: the
    analyses are paired, in order, with the statuses that were probed. *)
Definition finished_analyses (tracked : list Analysis.t)
    (statuses : list ProcessOutcome) : list Analysis.t :=
  map fst
    (filter (fun p => negb (outcome_eqb (snd p) ProcessRunning))
       (combine tracked statuses)).

(** The tracking database after the removals [rs]. *)
Definition remove_all (rs : list Analysis.t) (tracked : list Analysis.t)
    : list Analysis.t :=
  fold_left
    (fun s a => filter (fun x => negb (Analysis.eqb x a)) s) rs tracked.

(** A successful update of Charon for the sample of [a]. *)
Definition is_publish_ok_for (a : Analysis.t) (e : Event) : Prop :=
  exists status libpreps seqruns,
    e = EvPublish (Analysis.project_id a) (Analysis.sample_id a) status
          libpreps seqruns (Returned tt).

(** Every removal in [t] comes right after a successful update of Charon
    for the same analysis and the log line that follows it. *)
Definition removals_follow_publish (t : list Event) : Prop :=
  forall pre a post,
    t = pre ++ EvRemove a :: post ->
    exists pre' e,
      is_publish_ok_for a e /\
      pre = pre' ++ [e; EvLog (LogRemoving false)].

(** An update of Charon that raised is the last call of [t], and its
    exception is the result [r]. *)
Definition failed_publish_ends (t : list Event) (r : result unit) : Prop :=
  forall pre p s status libpreps seqruns e post,
    t = pre ++ EvPublish p s status libpreps seqruns (Raised e) :: post ->
    post = [] /\ r = Raised e.

(** ** Sample inputs *)

Definition fastq_SR1 : string := "/base/ProjA/S1/LP1/SR1/a.fastq.gz".
Definition fastq_SR2 : string := "/base/ProjA/S1/LP1/SR2/b.fastq.gz".
Definition fastq_other_project : string := "/data/ProjB/S2/LP7/SR9/c.fastq.gz".

Definition analysis_pid : Analysis.t :=
  Analysis.mk "ProjA" "S1" "sarek" "SarekGermlineAnalysis" "/base"
    (Some 1234%Z) None.

Definition analysis_job : Analysis.t :=
  Analysis.mk "ProjA" "S1" "sarek" "SarekGermlineAnalysis" "/base"
    None (Some 987%Z).

Definition analysis_pid_zero : Analysis.t :=
  Analysis.mk "ProjA" "S1" "sarek" "SarekGermlineAnalysis" "/base"
    (Some 0%Z) None.

Definition charon_status (s : ProcessOutcome) : string :=
  match s with
  | ProcessRunning => "UNDER_ANALYSIS"
  | FinishedSuccessfully => "ANALYZED"
  | FinishedWithError => "FAILED"
  end.

(** Collaborators that answer [status] to every probe, list [paths] for
    every TSV file and answer [published] to every update of Charon. *)
Definition sample_env (status : ProcessOutcome) (paths : list string)
    (published : result unit) : Collaborators :=
  {| sample_analysis_exit_code_path :=
       fun _ base project sample =>
         Returned (base ++ "/ANALYSIS/" ++ project ++ "/" ++ sample
                   ++ ".exit_code")%string;
     sample_analysis_tsv_file :=
       fun _ base project sample =>
         Returned (base ++ "/ANALYSIS/" ++ project ++ "/" ++ sample
                   ++ ".tsv")%string;
     fastq_files_from_tsv_file := fun _ _ _ => Returned paths;
     get_type_from_processid_and_exit_code_path :=
       fun _ _ _ _ => Returned status;
     analysis_status_from_process_status :=
       fun s => Returned (charon_status s);
     set_sample_analysis_status := fun _ _ _ _ _ _ => published |}.

Definition empty_state (tracked : list Analysis.t) : State :=
  mkState tracked [].

Definition analysis_other_sample : Analysis.t :=
  Analysis.mk "ProjA" "S2" "sarek" "SarekGermlineAnalysis" "/base"
    None (Some 988%Z).

Definition charon_down : exn := CollaboratorError "charon".

(** Collaborators for which a process has finished and a batch job is
    still running. *)
Definition mixed_env (paths : list string) : Collaborators :=
  {| sample_analysis_exit_code_path :=
       sample_analysis_exit_code_path
         (sample_env ProcessRunning paths (Returned tt));
     sample_analysis_tsv_file :=
       sample_analysis_tsv_file
         (sample_env ProcessRunning paths (Returned tt));
     fastq_files_from_tsv_file := fun _ _ _ => Returned paths;
     get_type_from_processid_and_exit_code_path :=
       fun _ ty _ _ =>
         match ty with
         | ProcessStatus => Returned FinishedSuccessfully
         | JobStatus => Returned ProcessRunning
         end;
     analysis_status_from_process_status :=
       fun s => Returned (charon_status s);
     set_sample_analysis_status := fun _ _ _ _ _ _ => Returned tt |}.

(** ** Further readings of a hierarchy and of a trace *)

(** Sibling names are unique at every level of a project. *)
Definition unique_seqruns (l : NGILibraryPrep) : Prop :=
  NoDup (map run_name (lib_seqruns l)).

Definition unique_libpreps (s : NGISample) : Prop :=
  NoDup (map lib_name (samp_libpreps s)) /\
  Forall unique_seqruns (samp_libpreps s).

Definition unique_names (p : NGIProject) : Prop :=
  NoDup (sample_names p) /\ Forall unique_libpreps (proj_samples p).

(** The number of fastq file names held by a node. *)
Definition seqrun_files (r : NGISeqRun) : nat := length (run_fastq_files r).

Definition libprep_files (l : NGILibraryPrep) : nat :=
  list_sum (map seqrun_files (lib_seqruns l)).

Definition sample_files (s : NGISample) : nat :=
  list_sum (map libprep_files (samp_libpreps s)).

Definition total_files (p : NGIProject) : nat :=
  list_sum (map sample_files (proj_samples p)).

(** The seqrun names of a sample, libprep by libprep. *)
Definition seqrun_scope (p : NGIProject) (sample : string)
    : list (string * list string) :=
  map (fun l => (l, seqrun_names p sample l)) (libprep_names p sample).

(** The project id and sample id that an update of Charon is made for. *)
Definition target_of (a : Analysis.t) : string * string :=
  (Analysis.project_id a, Analysis.sample_id a).

(** An update of Charon: project id, sample id, status, libprep scope,
    seqrun scope and what the call answered. *)
Record PublishCall := mkPublishCall {
  pub_project_id : string;
  pub_sample_id : string;
  pub_status : string;
  pub_libpreps : list string;
  pub_seqruns : list (string * list string);
  pub_result : result unit
}.

Definition publish_calls (t : list Event) : list PublishCall :=
  flat_map
    (fun e =>
       match e with
       | EvPublish p s status libpreps seqruns r =>
           [mkPublishCall p s status libpreps seqruns r]
       | _ => []
       end) t.

Definition publish_targets (t : list Event) : list (string * string) :=
  map (fun c => (pub_project_id c, pub_sample_id c)) (publish_calls t).

(** The lists of fastq file paths that were read from TSV files. *)
Definition fastq_lists (t : list Event) : list (list string) :=
  flat_map
    (fun e =>
       match e with
       | EvFastqFiles _ (Returned paths) => [paths]
       | _ => []
       end) t.

(** The sample of the analysis in a list of sample objects. *)
Definition sample_of (a : Analysis.t) (samples : list NGISample)
    : result NGISample :=
  pop (filter (fun x => String.eqb (samp_name x) (Analysis.sample_id a))
         samples).

(** The status that an update of Charon carries is the translation of the
    probed status [ps], and the update was answered. *)
Definition published_for (env : Collaborators) (c : PublishCall)
    (ps : ProcessOutcome) : Prop :=
  analysis_status_from_process_status env ps = Returned (pub_status c) /\
  pub_result c = Returned tt.

(** The tracked analyses whose probed status is [ProcessRunning]. *)
Definition running_analyses (tracked : list Analysis.t)
    (statuses : list ProcessOutcome) : list Analysis.t :=
  map fst
    (filter (fun p => outcome_eqb (snd p) ProcessRunning)
       (combine tracked statuses)).


(** Further sample inputs. *)
Definition sample_paths : list string :=
  [fastq_SR1; fastq_SR2; fastq_other_project].

Definition sample_project : NGIProject :=
  mkProject "ProjA" "ProjA" "ProjA" "/"
    [mkSample "S1" "S1"
       [mkLibraryPrep "LP1" "LP1"
          [mkSeqRun "SR1" "SR1" ["a.fastq.gz"];
           mkSeqRun "SR2" "SR2" ["b.fastq.gz"]]];
     mkSample "S2" "S2"
       [mkLibraryPrep "LP7" "LP7" [mkSeqRun "SR9" "SR9" ["c.fastq.gz"]]]].

Definition sample_publish_call : PublishCall :=
  mkPublishCall "ProjA" "S1" "ANALYZED" ["LP1"] [("LP1", ["SR1"; "SR2"])]
    (Returned tt).

Definition finished_env : Collaborators :=
  sample_env FinishedSuccessfully [fastq_SR1; fastq_SR2] (Returned tt).

Example split_abs :
  PosixPath.split "/base/ProjA/S1" = ("/base/ProjA", "S1").
Proof. reflexivity. Qed.

Example split_root : PosixPath.split "/base" = ("/", "base").
Proof. reflexivity. Qed.

Example split_rel : PosixPath.split "base" = ("", "base").
Proof. reflexivity. Qed.

Example split_slashes : PosixPath.split "//a//b" = ("//a", "b").
Proof. reflexivity. Qed.

Example split_trailing : PosixPath.split "/a/b/" = ("/a/b", "").
Proof. reflexivity. Qed.

Example dirname_root : PosixPath.dirname "/" = "/".
Proof. reflexivity. Qed.

Example split_scenario :
  split_fastq_file_path fastq_SR1 =
  mkPathParts "a.fastq.gz" "/base/ProjA/S1/LP1/SR1" "SR1"
    "/base/ProjA/S1/LP1" "LP1" "/base/ProjA/S1" "S1" "/base/ProjA" "ProjA"
    "/base" "/".
Proof. reflexivity. Qed.

(** The scenario of the specification: one sample, one libprep, two
    seqruns with one file each. *)
Example rebuild_scenario :
  _project_from_fastq_file_paths [fastq_SR1; fastq_SR2] =
  Some (mkProject "ProjA" "ProjA" "ProjA" "/"
          [mkSample "S1" "S1"
             [mkLibraryPrep "LP1" "LP1"
                [mkSeqRun "SR1" "SR1" ["a.fastq.gz"];
                 mkSeqRun "SR2" "SR2" ["b.fastq.gz"]]]]).
Proof. reflexivity. Qed.

Example run_finished :
  update_charon_with_local_jobs_status
    (sample_env FinishedSuccessfully [fastq_SR1; fastq_SR2] (Returned tt))
    (empty_state [analysis_pid]) =
  (mkState []
     [EvLog LogUpdating;
      EvLog (LogChecking analysis_pid);
      EvProbe ProcessStatus (Some 1234%Z) "/base/ANALYSIS/ProjA/S1.exit_code"
        (Returned FinishedSuccessfully);
      EvLog (LogStatus true (Some 1234%Z) FinishedSuccessfully);
      EvFastqFiles "/base/ANALYSIS/ProjA/S1.tsv"
        (Returned [fastq_SR1; fastq_SR2]);
      EvPublish "ProjA" "S1" "ANALYZED" ["LP1"] [("LP1", ["SR1"; "SR2"])]
        (Returned tt);
      EvLog (LogRemoving false);
      EvRemove analysis_pid],
   Returned tt).
Proof. vm_compute. reflexivity. Qed.

Example run_running :
  update_charon_with_local_jobs_status
    (sample_env ProcessRunning [fastq_SR1; fastq_SR2] (Returned tt))
    (empty_state [analysis_job]) =
  (mkState [analysis_job]
     [EvLog LogUpdating;
      EvLog (LogChecking analysis_job);
      EvProbe JobStatus (Some 987%Z) "/base/ANALYSIS/ProjA/S1.exit_code"
        (Returned ProcessRunning);
      EvLog (LogStatus false (Some 987%Z) ProcessRunning);
      EvFastqFiles "/base/ANALYSIS/ProjA/S1.tsv"
        (Returned [fastq_SR1; fastq_SR2]);
      EvPublish "ProjA" "S1" "UNDER_ANALYSIS" ["LP1"]
        [("LP1", ["SR1"; "SR2"])] (Returned tt);
      EvLog (LogRemoving true)],
   Returned tt).
Proof. vm_compute. reflexivity. Qed.

(** ** Facts about [posixpath] *)

Module PosixPathFacts.
Import PosixPath.

Lemma append_assoc (a b c : string) :
  ((a ++ b) ++ c = a ++ (b ++ c))%string.
Proof. induction a as [|x a IH]; simpl; [reflexivity | now rewrite IH]. Qed.

Lemma rfind_no_sep (s : string) :
  forall i acc, no_sep s = true -> rfind_sep_from i acc s = acc.
Proof.
  induction s as [|c s IH]; intros i acc H; simpl in *.
  - reflexivity.
  - apply andb_prop in H as [Hc Hs].
    apply negb_true_iff in Hc. rewrite Hc. now apply IH.
Qed.

Lemma rfind_join (d seg : string) :
  forall i acc,
    no_sep seg = true ->
    rfind_sep_from i acc (join d seg) = i + String.length d + 1.
Proof.
  unfold join.
  induction d as [|c d IH]; intros i acc H; simpl.
  - rewrite rfind_no_sep by assumption. lia.
  - rewrite IH by assumption. lia.
Qed.

Lemma slice_to_join (d seg : string) :
  slice_to (String.length d + 1) (join d seg) = (d ++ String sep "")%string.
Proof.
  unfold join. induction d as [|c d IH]; simpl.
  - reflexivity.
  - now rewrite IH.
Qed.

Lemma slice_from_join (d seg : string) :
  slice_from (String.length d + 1) (join d seg) = seg.
Proof.
  unfold join. induction d as [|c d IH]; simpl; [reflexivity | exact IH].
Qed.

Lemma all_sep_append (a b : string) :
  all_sep (a ++ b) = all_sep a && all_sep b.
Proof.
  induction a as [|c a IH]; simpl; [reflexivity|].
  now rewrite IH, andb_assoc.
Qed.

Lemma is_empty_append (a b : string) :
  is_empty (a ++ b) = is_empty a && is_empty b.
Proof. destruct a; reflexivity. Qed.


Lemma rstrip_append_nonempty (a b : string) :
  rstrip_sep b <> ""%string ->
  rstrip_sep (a ++ b) = (a ++ rstrip_sep b)%string.
Proof.
  intro H. induction a as [|c a IH]; simpl; [reflexivity|].
  rewrite IH. destruct (a ++ rstrip_sep b)%string eqn:E; [|reflexivity].
  destruct a; simpl in E; [contradiction | discriminate].
Qed.

Lemma rstrip_append_sep (d : string) :
  rstrip_sep (d ++ String sep "") = rstrip_sep d.
Proof.
  induction d as [|c d IH]; simpl; [reflexivity|]. now rewrite IH.
Qed.

Lemma rstrip_no_sep (s : string) : no_sep s = true -> rstrip_sep s = s.
Proof.
  induction s as [|c s IH]; simpl; intro H; [reflexivity|].
  apply andb_prop in H as [Hc Hs]. apply negb_true_iff in Hc.
  rewrite (IH Hs), Hc. now destruct s.
Qed.

Lemma name_not_all_sep (s : string) : is_name s = true -> all_sep s = false.
Proof.
  unfold is_name. destruct s as [|c s]; simpl; [discriminate|].
  intro H. apply andb_prop in H as [Hc _]. apply negb_true_iff in Hc.
  now rewrite Hc.
Qed.

Lemma strip_head_clean (d : string) :
  clean d -> strip_head (d ++ String sep "") = d.
Proof.
  intros [Hall Hstrip]. unfold strip_head.
  rewrite is_empty_append, all_sep_append, Hall. simpl.
  rewrite andb_false_r. simpl.
  now rewrite rstrip_append_sep.
Qed.

Lemma clean_join (d seg : string) : is_name seg = true -> clean (join d seg).
Proof.
  intro H. pose proof (name_not_all_sep _ H) as Hall.
  unfold is_name in H. apply andb_prop in H as [Hne Hns].
  unfold clean, join. split.
  - rewrite all_sep_append. simpl. rewrite Hall.
    now rewrite !andb_false_r.
  - change (String sep seg) with (String sep "" ++ seg)%string.
    rewrite <- append_assoc.
    rewrite rstrip_append_nonempty; rewrite (rstrip_no_sep _ Hns).
    + reflexivity.
    + destruct seg; [discriminate | discriminate].
Qed.

(** Splitting [d/seg] gives [d] and [seg]. *)
Lemma split_join (d seg : string) :
  clean d -> no_sep seg = true -> split (join d seg) = (d, seg).
Proof.
  intros Hd Hseg. unfold split, rfind_sep_succ.
  rewrite rfind_join by assumption. simpl.
  rewrite slice_to_join, slice_from_join, strip_head_clean by assumption.
  reflexivity.
Qed.

(** Whatever [d] is, the tail of [d/seg] is [seg] and its head is the
    directory name of [d/seg]. *)
Lemma split_join_any (d seg : string) :
  no_sep seg = true -> split (join d seg) = (dirname (join d seg), seg).
Proof.
  intro Hseg. unfold split, dirname, rfind_sep_succ.
  rewrite rfind_join by assumption. simpl.
  now rewrite slice_from_join.
Qed.

Lemma dirname_is_split_head (p : string) : dirname p = fst (split p).
Proof. reflexivity. Qed.

Lemma dirname_join (d seg : string) :
  clean d -> no_sep seg = true -> dirname (join d seg) = d.
Proof.
  intros Hd Hseg. rewrite dirname_is_split_head, split_join by assumption.
  reflexivity.
Qed.

End PosixPathFacts.

(** ** The parts of a fastq file path *)

Section PathParts.
Import PosixPath PosixPathFacts.

(** Whatever the path is, each part is a directory name or a base name of
    the path: the base path of the project is six directory levels above
    the file, one more than the directory that holds the project
    directory. *)
Lemma split_fastq_file_path_dirnames (p : string) :
  let parts := split_fastq_file_path p in
  seqrun_path parts = dirname p /\
  libprep_path parts = dirname (seqrun_path parts) /\
  sample_path parts = dirname (libprep_path parts) /\
  project_path parts = dirname (sample_path parts) /\
  project_data_path parts = dirname (project_path parts) /\
  project_base_path parts = dirname (project_data_path parts) /\
  fastq_file_name parts = snd (split p) /\
  seqrun_name parts = snd (split (seqrun_path parts)) /\
  libprep_name parts = snd (split (libprep_path parts)) /\
  sample_name parts = snd (split (sample_path parts)) /\
  project_name parts = snd (split (project_path parts)).
Proof.
  unfold split_fastq_file_path, dirname, split. cbn [fst snd].
  repeat split.
Qed.

(** C4, as amended. For a fastq file path
    [d/project/sample/libprep/seqrun/file], whatever the leading part [d]
    is: the directory holding the file gives the seqrun name, its parent
    the libprep name, the next parent the sample name and the next the
    project name; the project base path is the parent of the parent of the
    project directory, that is the directory name of the directory that
    holds the project directory. *)
Theorem split_fastq_file_path_segments
    (d project sample libprep seqrun file : string) :
  is_name project = true ->
  is_name sample = true ->
  is_name libprep = true ->
  is_name seqrun = true ->
  no_sep file = true ->
  let project_dir := join d project in
  let parts :=
    split_fastq_file_path
      (join (join (join (join project_dir sample) libprep) seqrun) file) in
  fastq_file_name parts = file /\
  seqrun_name parts = seqrun /\
  libprep_name parts = libprep /\
  sample_name parts = sample /\
  project_name parts = project /\
  project_path parts = project_dir /\
  project_data_path parts = dirname project_dir /\
  project_base_path parts = dirname (dirname project_dir).
Proof.
  intros Hp Hs Hl Hr Hf project_dir parts. subst project_dir.
  assert (Hns : forall x, is_name x = true -> no_sep x = true).
  { intros x Hx. unfold is_name in Hx. now apply andb_prop in Hx. }
  pose proof (clean_join d project Hp) as C1.
  pose proof (clean_join (join d project) sample Hs) as C2.
  pose proof (clean_join (join (join d project) sample) libprep Hl) as C3.
  pose proof
    (clean_join (join (join (join d project) sample) libprep) seqrun Hr)
    as C4.
  subst parts. unfold split_fastq_file_path.
  rewrite (split_join _ file C4 Hf).
  rewrite (split_join _ seqrun C3 (Hns _ Hr)).
  rewrite (split_join _ libprep C2 (Hns _ Hl)).
  rewrite (split_join _ sample C1 (Hns _ Hs)).
  rewrite (split_join_any d project (Hns _ Hp)).
  simpl. repeat split; reflexivity.
Qed.

Lemma split_fastq_file_path_segments_witness :
  let parts := split_fastq_file_path fastq_SR1 in
  fastq_file_name parts = "a.fastq.gz" /\
  seqrun_name parts = "SR1" /\
  libprep_name parts = "LP1" /\
  sample_name parts = "S1" /\
  project_name parts = "ProjA" /\
  project_path parts = "/base/ProjA" /\
  project_data_path parts = dirname "/base/ProjA" /\
  project_base_path parts = dirname (dirname "/base/ProjA").
Proof.
  exact (split_fastq_file_path_segments "/base" "ProjA" "S1" "LP1" "SR1"
           "a.fastq.gz" eq_refl eq_refl eq_refl eq_refl eq_refl).
Defined.

(** C4, as stated, fails on the path of the scenario of the
    specification: the parent of the project directory [/base/ProjA] is
    [/base], but the base path of the project that is built is [/]. *)
Lemma base_path_is_not_parent_of_project_dir :
  let parts := split_fastq_file_path fastq_SR1 in
  project_path parts = "/base/ProjA" /\
  dirname (project_path parts) = "/base" /\
  project_base_path parts = "/" /\
  project_base_path parts <> dirname (project_path parts) /\
  option_map proj_base_path (_project_from_fastq_file_paths [fastq_SR1])
    = Some "/".
Proof.
  vm_compute. repeat split; try reflexivity. discriminate.
Qed.

End PathParts.

(** ** Facts about the project hierarchy *)

Section SubItems.

Context {A : Type} (name_of : A -> string) (name : string) (fresh : A)
  (then_do : A -> A).
Hypothesis fresh_name : name_of fresh = name.
Hypothesis then_do_name : forall x, name_of (then_do x) = name_of x.

Lemma names_add_subitem (items : list A) (n : string) :
  In n (map name_of (add_subitem name_of name fresh then_do items)) <->
  In n (map name_of items) \/ n = name.
Proof.
  induction items as [|x rest IH]; simpl.
  - rewrite then_do_name, fresh_name. intuition.
  - destruct (String.eqb (name_of x) name) eqn:E; simpl.
    + apply String.eqb_eq in E. rewrite then_do_name. clear IH.
      split.
      * intros [H|H]; auto.
      * intros [[H|H]|H]; auto. left. congruence.
    + rewrite IH. intuition.
Qed.

Lemma find_add_subitem (items : list A) (n : string) :
  find_by_name name_of n (add_subitem name_of name fresh then_do items) =
  if String.eqb name n then
    Some (then_do
            match find_by_name name_of name items with
            | Some x => x
            | None => fresh
            end)
  else find_by_name name_of n items.
Proof.
  unfold find_by_name.
  induction items as [|x rest IH]; simpl.
  - now rewrite then_do_name, fresh_name.
  - destruct (String.eqb (name_of x) name) eqn:E; simpl.
    + rewrite then_do_name. apply String.eqb_eq in E. rewrite E.
      now destruct (String.eqb name n).
    + rewrite IH. destruct (String.eqb (name_of x) n) eqn:En.
      * apply String.eqb_eq in En. subst n.
        rewrite String.eqb_sym, E. reflexivity.
      * reflexivity.
Qed.

End SubItems.

Section Reconstructor.

Lemma find_sample_add_parts (parts : PathParts) (p : NGIProject) (s : string) :
  find_by_name samp_name s (proj_samples (add_parts parts p)) =
  if String.eqb (sample_name parts) s then
    Some (add_libprep (libprep_name parts) (libprep_name parts)
            (add_seqrun (seqrun_name parts) (seqrun_name parts)
               (add_fastq_files (fastq_file_name parts)))
            match find_by_name samp_name (sample_name parts) (proj_samples p)
            with
            | Some x => x
            | None => mkSample (sample_name parts) (sample_name parts) []
            end)
  else find_by_name samp_name s (proj_samples p).
Proof.
  unfold add_parts, add_sample. simpl.
  now rewrite find_add_subitem.
Qed.

Lemma find_libprep_add (parts : PathParts) (x : NGISample) (l : string) :
  find_by_name lib_name l
    (samp_libpreps
       (add_libprep (libprep_name parts) (libprep_name parts)
          (add_seqrun (seqrun_name parts) (seqrun_name parts)
             (add_fastq_files (fastq_file_name parts))) x)) =
  if String.eqb (libprep_name parts) l then
    Some (add_seqrun (seqrun_name parts) (seqrun_name parts)
            (add_fastq_files (fastq_file_name parts))
            match find_by_name lib_name (libprep_name parts) (samp_libpreps x)
            with
            | Some y => y
            | None => mkLibraryPrep (libprep_name parts) (libprep_name parts) []
            end)
  else find_by_name lib_name l (samp_libpreps x).
Proof.
  unfold add_libprep. simpl. now rewrite find_add_subitem.
Qed.

Lemma find_seqrun_add (parts : PathParts) (y : NGILibraryPrep) (r : string) :
  find_by_name run_name r
    (lib_seqruns
       (add_seqrun (seqrun_name parts) (seqrun_name parts)
          (add_fastq_files (fastq_file_name parts)) y)) =
  if String.eqb (seqrun_name parts) r then
    Some (add_fastq_files (fastq_file_name parts)
            match find_by_name run_name (seqrun_name parts) (lib_seqruns y)
            with
            | Some z => z
            | None => mkSeqRun (seqrun_name parts) (seqrun_name parts) []
            end)
  else find_by_name run_name r (lib_seqruns y).
Proof.
  unfold add_seqrun. simpl. now rewrite find_add_subitem.
Qed.

(** The name sets after one turn of the loop. *)
Lemma sample_names_add_parts parts p s :
  In s (sample_names (add_parts parts p)) <->
  In s (sample_names p) \/ s = sample_name parts.
Proof.
  unfold sample_names, add_parts, add_sample. simpl.
  now apply names_add_subitem.
Qed.

Lemma libprep_names_add_parts parts p s l :
  In l (libprep_names (add_parts parts p) s) <->
  In l (libprep_names p s) \/
  (s = sample_name parts /\ l = libprep_name parts).
Proof.
  unfold libprep_names. rewrite find_sample_add_parts.
  destruct (String.eqb (sample_name parts) s) eqn:Es.
  - apply String.eqb_eq in Es. subst s.
    unfold add_libprep at 1. simpl.
    rewrite names_add_subitem by reflexivity.
    destruct (find_by_name samp_name (sample_name parts) (proj_samples p));
      simpl; intuition.
  - apply String.eqb_neq in Es.
    intuition congruence.
Qed.

Lemma seqrun_names_add_parts parts p s l r :
  In r (seqrun_names (add_parts parts p) s l) <->
  In r (seqrun_names p s l) \/
  (s = sample_name parts /\ l = libprep_name parts /\ r = seqrun_name parts).
Proof.
  unfold seqrun_names. rewrite find_sample_add_parts.
  destruct (String.eqb (sample_name parts) s) eqn:Es.
  - apply String.eqb_eq in Es. subst s.
    rewrite find_libprep_add.
    destruct (String.eqb (libprep_name parts) l) eqn:El.
    + apply String.eqb_eq in El. subst l.
      unfold add_seqrun at 1. simpl.
      rewrite names_add_subitem by reflexivity.
      destruct (find_by_name samp_name (sample_name parts) (proj_samples p))
        as [x|]; simpl.
      * destruct (find_by_name lib_name (libprep_name parts)
                    (samp_libpreps x)); simpl; intuition.
      * intuition.
    + apply String.eqb_neq in El.
      destruct (find_by_name samp_name (sample_name parts) (proj_samples p))
        as [x|]; simpl; intuition congruence.
  - apply String.eqb_neq in Es. intuition congruence.
Qed.

Lemma fastq_file_names_add_parts parts p s l r :
  fastq_file_names (add_parts parts p) s l r =
  fastq_file_names p s l r ++
  (if under_seqrun s l r parts then [fastq_file_name parts] else []).
Proof.
  unfold fastq_file_names, under_seqrun. rewrite find_sample_add_parts.
  destruct (String.eqb (sample_name parts) s) eqn:Es.
  2: { simpl. now rewrite app_nil_r. }
  apply String.eqb_eq in Es. subst s.
  rewrite find_libprep_add.
  destruct (String.eqb (libprep_name parts) l) eqn:El.
  2: { simpl. rewrite app_nil_r.
       now destruct (find_by_name samp_name (sample_name parts)
                       (proj_samples p)). }
  apply String.eqb_eq in El. subst l.
  rewrite find_seqrun_add.
  destruct (String.eqb (seqrun_name parts) r) eqn:Er.
  2: { simpl. rewrite app_nil_r.
       destruct (find_by_name samp_name (sample_name parts) (proj_samples p))
         as [x|]; simpl; [|reflexivity].
       now destruct (find_by_name lib_name (libprep_name parts)
                       (samp_libpreps x)). }
  apply String.eqb_eq in Er. subst r.
  destruct (find_by_name samp_name (sample_name parts) (proj_samples p))
    as [x|]; simpl; [|reflexivity].
  destruct (find_by_name lib_name (libprep_name parts) (samp_libpreps x))
    as [y|]; simpl; [|reflexivity].
  now destruct (find_by_name run_name (seqrun_name parts) (lib_seqruns y)).
Qed.

End Reconstructor.

Section Rebuild.

Lemma fold_add_fastq_file_path (paths : list string) (p : NGIProject) :
  fold_left add_fastq_file_path paths (Some p) = Some (add_paths paths p).
Proof.
  revert p. induction paths as [|q rest IH]; intro p; simpl.
  - reflexivity.
  - unfold add_fastq_file_path at 2. simpl. apply IH.
Qed.

Lemma rebuild_cons (path : string) (rest : list string) :
  _project_from_fastq_file_paths (path :: rest) =
  Some (add_paths (path :: rest)
          (new_project (split_fastq_file_path path))).
Proof.
  unfold _project_from_fastq_file_paths. simpl.
  unfold add_fastq_file_path at 2. simpl.
  apply fold_add_fastq_file_path.
Qed.

Lemma proj_name_add_paths paths p :
  proj_name (add_paths paths p) = proj_name p /\
  proj_base_path (add_paths paths p) = proj_base_path p.
Proof.
  revert p. induction paths as [|q rest IH]; intro p; simpl.
  - split; reflexivity.
  - unfold add_paths in *. simpl. destruct (IH (add_parts (split_fastq_file_path q) p))
      as [H1 H2].
    rewrite H1, H2. split; reflexivity.
Qed.

Lemma sample_names_add_paths paths p s :
  In s (sample_names (add_paths paths p)) <->
  In s (sample_names p) \/
  exists q, In q paths /\ sample_name (split_fastq_file_path q) = s.
Proof.
  revert p. induction paths as [|q rest IH]; intro p.
  - simpl. firstorder.
  - unfold add_paths in *. simpl. rewrite IH, sample_names_add_parts.
    split.
    + intros [[H|H]|[q' [H1 H2]]];
        [ now left | right; exists q; now split; [left|]
        | right; exists q'; now split; [right|] ].
    + intros [H|[q' [[H1|H1] H2]]]; subst; eauto.
Qed.

Lemma libprep_names_add_paths paths p s l :
  In l (libprep_names (add_paths paths p) s) <->
  In l (libprep_names p s) \/
  exists q, In q paths /\
    sample_name (split_fastq_file_path q) = s /\
    libprep_name (split_fastq_file_path q) = l.
Proof.
  revert p. induction paths as [|q rest IH]; intro p.
  - simpl. firstorder.
  - unfold add_paths in *. simpl. rewrite IH, libprep_names_add_parts.
    split.
    + intros [[H|[H1 H2]]|[q' [H1 H2]]];
        [ now left | right; exists q; now split; [left|]
        | right; exists q'; now split; [right|] ].
    + intros [H|[q' [[H1|H1] [H2 H3]]]]; subst; eauto 6.
Qed.

Lemma seqrun_names_add_paths paths p s l r :
  In r (seqrun_names (add_paths paths p) s l) <->
  In r (seqrun_names p s l) \/
  exists q, In q paths /\
    sample_name (split_fastq_file_path q) = s /\
    libprep_name (split_fastq_file_path q) = l /\
    seqrun_name (split_fastq_file_path q) = r.
Proof.
  revert p. induction paths as [|q rest IH]; intro p.
  - simpl. firstorder.
  - unfold add_paths in *. simpl. rewrite IH, seqrun_names_add_parts.
    split.
    + intros [[H|[H1 [H2 H3]]]|[q' [H1 H2]]];
        [ now left | right; exists q; now split; [left|]
        | right; exists q'; now split; [right|] ].
    + intros [H|[q' [[H1|H1] [H2 [H3 H4]]]]]; subst; eauto 8.
Qed.

Lemma fastq_file_names_add_paths paths p s l r :
  fastq_file_names (add_paths paths p) s l r =
  fastq_file_names p s l r ++ files_under s l r paths.
Proof.
  revert p. induction paths as [|q rest IH]; intro p.
  - simpl. now rewrite app_nil_r.
  - unfold add_paths in *. cbn [fold_left files_under flat_map].
    rewrite IH, fastq_file_names_add_parts.
    now rewrite <- app_assoc.
Qed.

Lemma exists_in_permutation {A : Type} (l l' : list A) (P : A -> Prop) :
  Permutation l l' ->
  (exists q, In q l /\ P q) <-> (exists q, In q l' /\ P q).
Proof.
  intro H. split; intros [q [Hin HP]]; exists q; split; auto.
  - eapply Permutation_in; eauto.
  - eapply Permutation_in; [apply Permutation_sym|]; eauto.
Qed.

End Rebuild.

(** ** The project reconstructor *)

Section ReconstructorClaims.

(** C6. Whatever the order of the fastq file paths, the project that is
    built has the same sample names, the same libprep names under each
    sample and the same seqrun names under each libprep; only the order of
    the file names under a seqrun follows the order of the paths. *)
Theorem project_from_permuted_paths (paths paths' : list string) :
  Permutation paths paths' ->
  same_name_sets_opt (_project_from_fastq_file_paths paths)
    (_project_from_fastq_file_paths paths').
Proof.
  intro Hperm.
  destruct paths as [|p rest].
  - apply Permutation_nil in Hperm. subst paths'. exact I.
  - destruct paths' as [|p' rest'].
    + apply Permutation_sym, Permutation_nil in Hperm. discriminate.
    + rewrite !rebuild_cons. unfold same_name_sets_opt, same_name_sets.
      repeat split.
      * rewrite sample_names_add_paths. intros [H|H]; [destruct H|].
        rewrite sample_names_add_paths. right.
        now apply (exists_in_permutation _ _ _ Hperm).
      * rewrite sample_names_add_paths. intros [H|H]; [destruct H|].
        rewrite sample_names_add_paths. right.
        now apply (exists_in_permutation _ _ _ Hperm).
      * rewrite libprep_names_add_paths. intros [H|H]; [destruct H|].
        rewrite libprep_names_add_paths. right.
        now apply (exists_in_permutation _ _ _ Hperm).
      * rewrite libprep_names_add_paths. intros [H|H]; [destruct H|].
        rewrite libprep_names_add_paths. right.
        now apply (exists_in_permutation _ _ _ Hperm).
      * rewrite seqrun_names_add_paths. intros [H|H]; [destruct H|].
        rewrite seqrun_names_add_paths. right.
        now apply (exists_in_permutation _ _ _ Hperm).
      * rewrite seqrun_names_add_paths. intros [H|H]; [destruct H|].
        rewrite seqrun_names_add_paths. right.
        now apply (exists_in_permutation _ _ _ Hperm).
      * intros s l r. rewrite !fastq_file_names_add_paths.
        apply Permutation_app; [reflexivity|].
        unfold files_under. now apply Permutation_flat_map.
Qed.

Lemma project_from_permuted_paths_witness :
  same_name_sets_opt
    (_project_from_fastq_file_paths
       [fastq_SR1; fastq_SR2; fastq_other_project])
    (_project_from_fastq_file_paths
       [fastq_other_project; fastq_SR2; fastq_SR1]).
Proof.
  apply project_from_permuted_paths.
  apply perm_trans with [fastq_SR2; fastq_SR1; fastq_other_project].
  - apply perm_swap.
  - apply perm_trans with [fastq_SR2; fastq_other_project; fastq_SR1].
    + apply perm_skip, perm_swap.
    + apply perm_swap.
Defined.

(** C10. From a list of paths that is not empty, one project is built. Its
    name and its base path are those of the first path, and the sample,
    libprep, seqrun and file of every path of the list are in it, whatever
    the project segment of that path is. *)
Theorem project_of_first_path (path : string) (rest : list string) :
  exists p,
    _project_from_fastq_file_paths (path :: rest) = Some p /\
    proj_name p = project_name (split_fastq_file_path path) /\
    proj_base_path p = project_base_path (split_fastq_file_path path) /\
    forall q,
      In q (path :: rest) ->
      let parts := split_fastq_file_path q in
      In (sample_name parts) (sample_names p) /\
      In (libprep_name parts) (libprep_names p (sample_name parts)) /\
      In (seqrun_name parts)
        (seqrun_names p (sample_name parts) (libprep_name parts)) /\
      In (fastq_file_name parts)
        (fastq_file_names p (sample_name parts) (libprep_name parts)
           (seqrun_name parts)).
Proof.
  eexists. split; [apply rebuild_cons|].
  destruct (proj_name_add_paths (path :: rest)
              (new_project (split_fastq_file_path path))) as [Hn Hb].
  rewrite Hn, Hb. split; [reflexivity|]. split; [reflexivity|].
  intros q Hq parts. subst parts. repeat split.
  - apply sample_names_add_paths. right. eauto.
  - apply libprep_names_add_paths. right. eauto.
  - apply seqrun_names_add_paths. right. eauto.
  - rewrite fastq_file_names_add_paths. apply in_or_app. right.
    unfold files_under. apply in_flat_map. exists q. split; [assumption|].
    unfold under_seqrun. rewrite !String.eqb_refl. simpl. now left.
Qed.

(** The samples of a path with another project segment end up in the
    project named after the first path. *)
Example project_of_two_project_segments :
  _project_from_fastq_file_paths [fastq_SR1; fastq_other_project] =
  Some (mkProject "ProjA" "ProjA" "ProjA" "/"
          [mkSample "S1" "S1"
             [mkLibraryPrep "LP1" "LP1" [mkSeqRun "SR1" "SR1" ["a.fastq.gz"]]];
           mkSample "S2" "S2"
             [mkLibraryPrep "LP7" "LP7"
                [mkSeqRun "SR9" "SR9" ["c.fastq.gz"]]]]).
Proof. reflexivity. Qed.

(** C5, as amended. On an empty list of paths the reconstructor returns
    [None], which is an ordinary result: [project_from_analysis] hands it
    to its caller without raising. *)
Theorem project_from_no_paths (env : Collaborators) (analysis : Analysis.t)
    (st : State) (tsv_file_path : string) :
  sample_analysis_tsv_file env (Analysis.workflow analysis)
    (Analysis.project_base_path analysis) (Analysis.project_id analysis)
    (Analysis.sample_id analysis) = Returned tsv_file_path ->
  fastq_files_from_tsv_file env (calls st) (Analysis.workflow analysis)
    tsv_file_path = Returned [] ->
  _project_from_fastq_file_paths [] = None /\
  project_from_analysis env analysis st =
  (mkState (store st)
     (calls st ++ [EvFastqFiles tsv_file_path (Returned [])]),
   Returned None).
Proof.
  intros Htsv Hfastq. split; [reflexivity|].
  unfold project_from_analysis, bind, lift, call, ret.
  rewrite Htsv. simpl. rewrite Hfastq. reflexivity.
Qed.

Lemma project_from_no_paths_witness :
  _project_from_fastq_file_paths [] = None /\
  project_from_analysis (sample_env FinishedSuccessfully [] (Returned tt))
    analysis_pid (empty_state [analysis_pid]) =
  (mkState [analysis_pid]
     [EvFastqFiles "/base/ANALYSIS/ProjA/S1.tsv" (Returned [])],
   Returned None).
Proof.
  exact (project_from_no_paths
           (sample_env FinishedSuccessfully [] (Returned tt))
           analysis_pid (empty_state [analysis_pid])
           "/base/ANALYSIS/ProjA/S1.tsv" eq_refl eq_refl).
Defined.

(** C5, as stated, fails: on the empty list no error is signalled. *)
Lemma no_paths_is_no_error :
  let r :=
    snd (project_from_analysis
           (sample_env FinishedSuccessfully [] (Returned tt))
           analysis_pid (empty_state [analysis_pid])) in
  _project_from_fastq_file_paths [] = None /\
  r = Returned None /\
  forall e, r <> Raised e.
Proof.
  vm_compute. repeat split. intros e H. discriminate H.
Qed.

(** The error shows one step later, when the caller iterates over the
    result to look for the sample. *)
Example update_analysis_no_paths :
  snd (update_analysis (sample_env FinishedSuccessfully [] (Returned tt))
         analysis_pid (empty_state [analysis_pid])) = Raised TypeError.
Proof. reflexivity. Qed.

End ReconstructorClaims.

(** ** The status check and the guarded removal *)

Section NewCalls.

Lemma new_calls_app (st : State) (s : list Analysis.t) (t : list Event) :
  new_calls st (mkState s (calls st ++ t)) = t.
Proof.
  unfold new_calls. simpl.
  induction (calls st) as [|e l IH]; simpl; [reflexivity | exact IH].
Qed.

Lemma new_calls_refl (st : State) : new_calls st st = [].
Proof.
  unfold new_calls. induction (calls st) as [|e l IH]; simpl; auto.
Qed.

Lemma calls_grow (st : State) (s : list Analysis.t) (e : Event) :
  mkState s (calls st ++ [e]) <> st.
Proof.
  intro H. apply (f_equal (fun x => length (calls x))) in H. simpl in H.
  rewrite length_app in H. simpl in H. lia.
Qed.

End NewCalls.

Section StatusClaims.

Variable env : Collaborators.

(** C7. The probe is called on [ProcessStatus] when the process id of the
    analysis is set and on [JobStatus] otherwise, with the exit code path
    that the path convention gives for the workflow, the project base path,
    the project id and the sample id; two analyses that agree on these four
    are probed with the same exit code path, whatever their identifiers
    and whatever was called before. *)
Theorem get_analysis_status_probe (a b : Analysis.t) (st st_b : State) :
  Analysis.workflow b = Analysis.workflow a ->
  Analysis.project_base_path b = Analysis.project_base_path a ->
  Analysis.project_id b = Analysis.project_id a ->
  Analysis.sample_id b = Analysis.sample_id a ->
  status_type_of a =
    match Analysis.process_id a with
    | Some _ => ProcessStatus
    | None => JobStatus
    end /\
  match exit_code_path_of env a with
  | Returned path =>
      let id :=
        py_or_id (Analysis.process_id a) (Analysis.slurm_job_id a) in
      let r :=
        get_type_from_processid_and_exit_code_path env (calls st)
          (status_type_of a) id path in
      get_analysis_status env a st =
      (mkState (store st)
         (calls st ++ [EvProbe (status_type_of a) id path r]), r)
  | Raised e => get_analysis_status env a st = (st, Raised e)
  end /\
  map snd (probe_calls (new_calls st_b (fst (get_analysis_status env b st_b))))
  = map snd (probe_calls (new_calls st (fst (get_analysis_status env a st)))).
Proof.
  intros Hw Hb Hp Hs.
  assert (Hrun : forall x s,
    get_analysis_status env x s =
    match exit_code_path_of env x with
    | Returned path =>
        let id :=
          py_or_id (Analysis.process_id x) (Analysis.slurm_job_id x) in
        let r :=
          get_type_from_processid_and_exit_code_path env (calls s)
            (status_type_of x) id path in
        (mkState (store s)
           (calls s ++ [EvProbe (status_type_of x) id path r]), r)
    | Raised e => (s, Raised e)
    end).
  { intros x s. unfold get_analysis_status, exit_code_path_of, bind, lift, call.
    destruct (sample_analysis_exit_code_path env _ _ _ _); reflexivity. }
  split; [|split].
  - unfold status_type_of. now destruct (Analysis.process_id a).
  - rewrite Hrun. now destruct (exit_code_path_of env a).
  - rewrite !Hrun.
    assert (He : exit_code_path_of env b = exit_code_path_of env a).
    { unfold exit_code_path_of. now rewrite Hw, Hb, Hp, Hs. }
    rewrite He. destruct (exit_code_path_of env a); simpl.
    + now rewrite !new_calls_app.
    + now rewrite !new_calls_refl.
Qed.

(** C9. With the process id 0 and no job id, the probe is the one of
    [ProcessStatus], and the identifier it gets is [None]. *)
Theorem probe_of_process_id_zero (a : Analysis.t) (st : State)
    (path : string) :
  Analysis.process_id a = Some 0%Z ->
  Analysis.slurm_job_id a = None ->
  exit_code_path_of env a = Returned path ->
  status_type_of a = ProcessStatus /\
  py_or_id (Analysis.process_id a) (Analysis.slurm_job_id a) = None /\
  get_analysis_status env a st =
  (let r :=
     get_type_from_processid_and_exit_code_path env (calls st) ProcessStatus
       None path in
   (mkState (store st) (calls st ++ [EvProbe ProcessStatus None path r]), r)).
Proof.
  intros Hpid Hjob Hpath.
  unfold get_analysis_status, status_type_of, bind, lift, call.
  unfold exit_code_path_of in Hpath. rewrite Hpath, Hpid, Hjob. simpl.
  repeat split.
Qed.

(** C8. With [force] the analysis is removed whatever the status is, also
    when it is [ProcessRunning]; without [force] the function returns
    without a call to the tracking connector exactly when the status is
    [ProcessRunning], and removes the analysis otherwise. *)
Theorem remove_analysis_force (a : Analysis.t) (s : ProcessOutcome)
    (st : State) :
  remove_analysis a s true st = (removed_from a st, Returned tt) /\
  remove_analysis a s false st =
    (if outcome_eqb s ProcessRunning then (st, Returned tt)
     else (removed_from a st, Returned tt)) /\
  (remove_analysis a s false st = (st, Returned tt) <->
   s = ProcessRunning) /\
  (removals (new_calls st (fst (remove_analysis a s false st))) = [] <->
   s = ProcessRunning) /\
  removals (new_calls st (fst (remove_analysis a s true st))) = [a].
Proof.
  assert (Hgrow : (removed_from a st, Returned tt) <> (st, Returned tt)).
  { intro H. injection H as H. revert H. apply calls_grow. }
  unfold remove_analysis, tracking_remove, ret.
  split; [now destruct s|]. split; [now destruct s|].
  destruct s; cbn [outcome_eqb andb negb fst]; unfold removed_from;
    rewrite ?new_calls_app, ?new_calls_refl; cbn [removals flat_map app].
  - repeat split.
  - repeat split; try discriminate; intro H; now destruct (Hgrow H).
  - repeat split; try discriminate; intro H; now destruct (Hgrow H).
Qed.

End StatusClaims.

Lemma get_analysis_status_probe_witness :
  let env := sample_env ProcessRunning [fastq_SR1] (Returned tt) in
  let st := empty_state [analysis_pid; analysis_job] in
  status_type_of analysis_pid = ProcessStatus /\
  get_analysis_status env analysis_pid st =
  (mkState [analysis_pid; analysis_job]
     [EvProbe ProcessStatus (Some 1234%Z) "/base/ANALYSIS/ProjA/S1.exit_code"
        (Returned ProcessRunning)],
   Returned ProcessRunning) /\
  map snd
    (probe_calls (new_calls st (fst (get_analysis_status env analysis_job st))))
  = map snd
      (probe_calls
         (new_calls st (fst (get_analysis_status env analysis_pid st)))).
Proof.
  exact (get_analysis_status_probe
           (sample_env ProcessRunning [fastq_SR1] (Returned tt))
           analysis_pid analysis_job
           (empty_state [analysis_pid; analysis_job])
           (empty_state [analysis_pid; analysis_job])
           eq_refl eq_refl eq_refl eq_refl).
Defined.

Lemma probe_of_process_id_zero_witness :
  let env := sample_env FinishedSuccessfully [fastq_SR1] (Returned tt) in
  status_type_of analysis_pid_zero = ProcessStatus /\
  py_or_id (Some 0%Z) None = None /\
  get_analysis_status env analysis_pid_zero (empty_state []) =
  (mkState []
     [EvProbe ProcessStatus None "/base/ANALYSIS/ProjA/S1.exit_code"
        (Returned FinishedSuccessfully)],
   Returned FinishedSuccessfully).
Proof.
  exact (probe_of_process_id_zero
           (sample_env FinishedSuccessfully [fastq_SR1] (Returned tt))
           analysis_pid_zero (empty_state [])
           "/base/ANALYSIS/ProjA/S1.exit_code" eq_refl eq_refl eq_refl).
Defined.

(** ** Running the monad *)

Section Running.

Lemma bind_inv {A B : Type} (c : M A) (k : A -> M B) st st' r :
  bind c k st = (st', r) ->
  (exists e, c st = (st', Raised e) /\ r = Raised e) \/
  (exists st1 x, c st = (st1, Returned x) /\ k x st1 = (st', r)).
Proof.
  unfold bind. destruct (c st) as [st1 [x|e]]; intro H.
  - right. eauto.
  - left. inversion H; subst. eauto.
Qed.

Lemma emit_inv e st st1 r :
  emit e st = (st1, r) ->
  st1 = mkState (store st) (calls st ++ [e]) /\ r = Returned tt.
Proof. unfold emit. intro H. inversion H. auto. Qed.

Lemma lift_inv {A : Type} (x : result A) st st1 r :
  lift x st = (st1, r) -> st1 = st /\ x = r.
Proof. unfold lift. intro H. inversion H. auto. Qed.

Lemma call_inv {A : Type} (answer : list Event -> result A) record st st1 r :
  call answer record st = (st1, r) ->
  answer (calls st) = r /\
  st1 = mkState (store st) (calls st ++ [record r]).
Proof. unfold call. intro H. inversion H. auto. Qed.

End Running.

(** A run of the loop body is taken apart call by call. *)
Ltac invert_run :=
  repeat match goal with
  | H : bind _ _ _ = (_, _) |- _ =>
      apply bind_inv in H; destruct H as [(? & ? & ?) | (? & ? & ? & ?)]
  | H : log_debug _ _ = (_, _) |- _ => unfold log_debug in H
  | H : get_analysis_status _ _ _ = (_, _) |- _ =>
      unfold get_analysis_status in H
  | H : project_from_analysis _ _ _ = (_, _) |- _ =>
      unfold project_from_analysis in H
  | H : emit _ _ = (_, _) |- _ => apply emit_inv in H; destruct H
  | H : lift _ _ = (_, _) |- _ => apply lift_inv in H; destruct H
  | H : call _ _ _ = (_, _) |- _ => apply call_inv in H; destruct H
  | H : ret _ _ = (_, _) |- _ => unfold ret in H; injection H as ? ?
  | H : Raised _ = Returned _ |- _ => discriminate H
  | H : Returned _ = Raised _ |- _ => discriminate H
  | H : Raised _ = Raised _ |- _ => injection H as H
  | H : Returned _ = Returned _ |- _ => injection H as H
  | H : ?x = _ |- _ => is_var x; subst x
  | H : _ = ?x |- _ => is_var x; subst x
  end.

Ltac end_of_turn removed :=
  cbn [store calls]; repeat rewrite <- app_assoc; cbn [app];
  exists removed; eexists; split; [reflexivity|];
  cbn [probed_statuses flat_map app after_quiet is_quiet];
  try rewrite app_nil_r.

(** ** One turn of the loop over the tracked analyses *)

Section Turn.

Variable env : Collaborators.

(** A turn makes quiet calls, then ends in one of the four ways of
    [iteration_end]; the tracking database changes only by the removal. *)
Lemma update_analysis_shape a st st' r :
  update_analysis env a st = (st', r) ->
  exists (removed : bool) (t : list Event),
    st' =
      mkState (if removed
               then filter (fun x => negb (Analysis.eqb x a)) (store st)
               else store st)
        (calls st ++ t) /\
    iteration_end a (probed_statuses t) (after_quiet t) r removed.
Proof.
  intro H. unfold update_analysis in H. invert_run.
  all: try (end_of_turn false; constructor).
  match goal with
  | H : remove_analysis _ ?s _ _ = _ |- _ =>
      unfold remove_analysis, tracking_remove, removed_from, ret in H;
      destruct s; cbn in H; injection H as <- <-
  end.
  all: repeat match goal with u : unit |- _ => destruct u end.
  - end_of_turn false. constructor.
  - end_of_turn true. constructor. discriminate.
  - end_of_turn true. constructor. discriminate.
Qed.

End Turn.

(** ** Traces *)

Section Traces.

Lemma id_eqb_eq (a b : option Z) : Analysis.id_eqb a b = true <-> a = b.
Proof.
  destruct a as [m|], b as [n|]; simpl; split; intro H;
    try discriminate; try reflexivity.
  - apply Z.eqb_eq in H. now subst.
  - injection H as ->. apply Z.eqb_refl.
Qed.

(** [Analysis.eqb] decides the equality of analysis records. *)
Lemma analysis_eqb_eq (a b : Analysis.t) : Analysis.eqb a b = true <-> a = b.
Proof.
  destruct a, b. unfold Analysis.eqb. simpl.
  rewrite !andb_true_iff, !String.eqb_eq, !id_eqb_eq.
  split.
  - intros [[[[[[-> ->] ->] ->] ->] ->] ->]. reflexivity.
  - intro H. injection H as -> -> -> -> -> -> ->. repeat split.
Qed.

Lemma removals_app t1 t2 : removals (t1 ++ t2) = removals t1 ++ removals t2.
Proof. apply flat_map_app. Qed.

Lemma probed_statuses_app t1 t2 :
  probed_statuses (t1 ++ t2) = probed_statuses t1 ++ probed_statuses t2.
Proof. apply flat_map_app. Qed.

Lemma new_calls_of st st' t : calls st' = calls st ++ t -> new_calls st st' = t.
Proof.
  unfold new_calls. intros ->.
  induction (calls st) as [|e l IH]; simpl; [reflexivity | exact IH].
Qed.

Lemma app_cons_split {A : Type} (l1 l2 pre post : list A) (x : A) :
  l1 ++ l2 = pre ++ x :: post ->
  (exists post1, l1 = pre ++ x :: post1) \/
  (exists pre2, pre = l1 ++ pre2 /\ l2 = pre2 ++ x :: post).
Proof.
  revert pre. induction l1 as [|y l1 IH]; intros pre H; simpl in H.
  - right. exists pre. auto.
  - destruct pre as [|z pre]; simpl in H; injection H as -> H.
    + left. exists l1. reflexivity.
    + destruct (IH pre H) as [[post1 ->]|[pre2 [-> ->]]].
      * left. exists post1. reflexivity.
      * right. exists pre2. auto.
Qed.

Lemma removals_follow_publish_app t1 t2 :
  removals_follow_publish t1 -> removals_follow_publish t2 ->
  removals_follow_publish (t1 ++ t2).
Proof.
  intros H1 H2 pre a post E.
  apply app_cons_split in E as [[post1 E1]|[pre2 [-> E2]]].
  - exact (H1 _ _ _ E1).
  - destruct (H2 _ _ _ E2) as (pre' & e & He & ->).
    exists (t1 ++ pre'), e. split; [assumption|]. now rewrite app_assoc.
Qed.

Lemma failed_publish_ends_app t1 t2 r :
  failed_publish_ends t1 (Returned tt) -> failed_publish_ends t2 r ->
  failed_publish_ends (t1 ++ t2) r.
Proof.
  intros H1 H2 pre p s status libpreps seqruns e post E.
  apply app_cons_split in E as [[post1 E1]|[pre2 [-> E2]]].
  - destruct (H1 _ _ _ _ _ _ _ _ E1) as [_ H]. discriminate H.
  - exact (H2 _ _ _ _ _ _ _ _ E2).
Qed.

Lemma quiet_has_no_loud t pre x post :
  forallb is_quiet t = true -> t = pre ++ x :: post -> is_quiet x = true.
Proof.
  intros Hq ->. rewrite forallb_app in Hq. apply andb_prop in Hq as [_ Hq].
  simpl in Hq. now apply andb_prop in Hq as [Hq _].
Qed.

Lemma quiet_removals_follow_publish t :
  forallb is_quiet t = true -> removals_follow_publish t.
Proof.
  intros Hq pre a post E.
  pose proof (quiet_has_no_loud _ _ _ _ Hq E) as H. discriminate H.
Qed.

Lemma quiet_failed_publish_ends t r :
  forallb is_quiet t = true -> failed_publish_ends t r.
Proof.
  intros Hq pre p s status libpreps seqruns e post E.
  pose proof (quiet_has_no_loud _ _ _ _ Hq E) as H. discriminate H.
Qed.

Lemma quiet_decompose t :
  exists q, forallb is_quiet q = true /\ t = q ++ after_quiet t.
Proof.
  induction t as [|e t [q [Hq IH]]]; simpl.
  - exists []. auto.
  - destruct (is_quiet e) eqn:E.
    + exists (e :: q). simpl. rewrite E, Hq. split; [reflexivity|].
      now rewrite <- IH.
    + exists []. auto.
Qed.

Lemma removals_after_quiet t : removals (after_quiet t) = removals t.
Proof.
  induction t as [|e t IH]; simpl; [reflexivity|].
  destruct e; simpl; auto.
Qed.

Lemma removals_follow_publish_after_quiet t :
  removals_follow_publish (after_quiet t) -> removals_follow_publish t.
Proof.
  intro H. destruct (quiet_decompose t) as [q [Hq E]]. rewrite E.
  apply removals_follow_publish_app; [|assumption].
  now apply quiet_removals_follow_publish.
Qed.

Lemma failed_publish_ends_after_quiet t r :
  failed_publish_ends (after_quiet t) r -> failed_publish_ends t r.
Proof.
  intro H. destruct (quiet_decompose t) as [q [Hq E]]. rewrite E.
  apply failed_publish_ends_app; [|assumption].
  now apply quiet_failed_publish_ends.
Qed.

Lemma finished_analyses_cons a tracked s statuses :
  finished_analyses (a :: tracked) (s :: statuses) =
  finished_analyses [a] [s] ++ finished_analyses tracked statuses.
Proof.
  unfold finished_analyses. simpl.
  destruct (outcome_eqb s ProcessRunning); reflexivity.
Qed.

Lemma remove_all_app rs1 rs2 tracked :
  remove_all (rs1 ++ rs2) tracked = remove_all rs2 (remove_all rs1 tracked).
Proof. apply fold_left_app. Qed.

End Traces.

(** An equation between a list that is written out and [pre ++ x :: post]
    is taken apart, one position of [x] after the other. *)
Ltac positions E :=
  repeat match type of E with
  | [] = ?pre ++ _ :: _ => destruct pre; discriminate E
  | _ :: _ = ?pre ++ _ :: _ =>
      destruct pre as [|? pre]; cbn [app] in E;
      [ try discriminate E; injection E as ? ?; subst
      | injection E as ? E; subst ]
  end.

Section TurnFacts.

Lemma iteration_end_facts a probed tail r removed :
  iteration_end a probed tail r removed ->
  removals_follow_publish tail /\
  failed_publish_ends tail r /\
  removals tail = (if removed then [a] else []) /\
  (r = Returned tt ->
   exists s, probed = [s] /\ removed = negb (outcome_eqb s ProcessRunning)) /\
  (forall e, r = Raised e -> removed = false).
Proof.
  intro H. destruct H as [probed e|probed status libpreps seqruns e
                          |status libpreps seqruns
                          |s status libpreps seqruns Hs].
  - repeat split; try discriminate; try reflexivity.
    + intros pre x post E. positions E.
    + positions H.
    + positions H.
  - repeat split; try discriminate; try reflexivity.
    + intros pre x post E. positions E.
    + positions H. reflexivity.
    + positions H. reflexivity.
  - repeat split; try discriminate; try reflexivity.
    + intros pre x post E. positions E.
    + positions H.
    + positions H.
    + intros _. exists ProcessRunning. auto.
  - repeat split; try discriminate; try reflexivity.
    + intros pre x post E. positions E.
      eexists [], _. split; [|reflexivity]. repeat eexists.
    + positions H.
    + positions H.
    + intros _. exists s. split; [reflexivity|]. now destruct s.
Qed.

End TurnFacts.

(** ** The loop over the tracked analyses *)

Section Pass.

Variable env : Collaborators.

(** What one turn of the loop does to the trace and to the database. *)
Lemma update_analysis_turn a st st' r :
  update_analysis env a st = (st', r) ->
  exists t,
    calls st' = calls st ++ t /\
    removals_follow_publish t /\
    failed_publish_ends t r /\
    store st' = remove_all (removals t) (store st) /\
    (r = Returned tt ->
     exists s, probed_statuses t = [s] /\
               removals t = finished_analyses [a] [s]) /\
    (forall e, r = Raised e -> removals t = []).
Proof.
  intro H. apply update_analysis_shape in H as (removed & t & -> & Hend).
  apply iteration_end_facts in Hend as (Hrfp & Hfpe & Hrem & Hret & Hraised).
  rewrite removals_after_quiet in Hrem.
  exists t. split; [reflexivity|].
  split; [now apply removals_follow_publish_after_quiet|].
  split; [now apply failed_publish_ends_after_quiet|].
  rewrite Hrem. cbn [store]. split; [|split].
  - now destruct removed.
  - intro Hr. destruct (Hret Hr) as (s & Hs & ->). exists s.
    split; [assumption|]. unfold finished_analyses. simpl.
    now destruct (outcome_eqb s ProcessRunning).
  - intros e Hr. now rewrite (Hraised e Hr).
Qed.

(** In a turn whose probe answers [ProcessRunning] nothing is removed and
    the tracking database is left as it is, however the turn ends. *)
Lemma running_analysis_is_kept a st st' r :
  update_analysis env a st = (st', r) ->
  In ProcessRunning (probed_statuses (new_calls st st')) ->
  removals (new_calls st st') = [] /\ store st' = store st.
Proof.
  intros H Hrun.
  apply update_analysis_shape in H as (removed & t & -> & Hend).
  rewrite new_calls_app in *. cbn [store].
  pose proof (iteration_end_facts _ _ _ _ _ Hend) as (_ & _ & Hrem & _ & _).
  rewrite removals_after_quiet in Hrem. rewrite Hrem.
  destruct Hend; auto.
  destruct Hrun as [Hrun|[]]. congruence.
Qed.

Lemma for_each_pass (tracked : list Analysis.t) :
  forall st st' r,
    for_each tracked (update_analysis env) st = (st', r) ->
    exists t,
      calls st' = calls st ++ t /\
      removals_follow_publish t /\
      failed_publish_ends t r /\
      store st' = remove_all (removals t) (store st) /\
      (exists rest,
         finished_analyses tracked (probed_statuses t) = removals t ++ rest) /\
      (r = Returned tt ->
       removals t = finished_analyses tracked (probed_statuses t) /\
       length (probed_statuses t) = length tracked).
Proof.
  induction tracked as [|a tracked IH]; intros st st' r H; simpl in H.
  - unfold ret in H. injection H as <- <-. exists [].
    rewrite app_nil_r.
    split; [reflexivity|].
    split; [now apply quiet_removals_follow_publish|].
    split; [now apply quiet_failed_publish_ends|].
    split; [reflexivity|].
    split; [exists []; reflexivity|].
    intros _. split; reflexivity.
  - apply bind_inv in H as [(e & H & ->)|(st1 & [] & H1 & H2)].
    + apply update_analysis_turn in H
        as (t & Hc & Hrfp & Hfpe & Hst & _ & Hraised).
      exists t.
      split; [assumption|]. split; [assumption|]. split; [assumption|].
      split; [assumption|].
      split.
      * rewrite (Hraised e eq_refl). eexists. reflexivity.
      * discriminate.
    + apply update_analysis_turn in H1
        as (t1 & Hc1 & Hrfp1 & Hfpe1 & Hst1 & Hret1 & _).
      destruct (Hret1 eq_refl) as (s & Hs & Hrem1).
      apply IH in H2
        as (t2 & Hc2 & Hrfp2 & Hfpe2 & Hst2 & [rest Hpre] & Hret2).
      exists (t1 ++ t2).
      rewrite removals_app, probed_statuses_app, Hs. cbn [app].
      rewrite finished_analyses_cons, <- Hrem1.
      split; [now rewrite Hc2, Hc1, app_assoc|].
      split; [now apply removals_follow_publish_app|].
      split; [now apply failed_publish_ends_app|].
      split; [now rewrite remove_all_app, <- Hst1|].
      split; [exists rest; now rewrite Hpre, app_assoc|].
      intro Hr. destruct (Hret2 Hr) as [E1 E2]. rewrite E1. cbn [length].
      rewrite E2. split; reflexivity.
Qed.

Lemma update_charon_pass st st' r :
  update_charon_with_local_jobs_status env st = (st', r) ->
  exists t,
    calls st' = calls st ++ t /\
    removals_follow_publish t /\
    failed_publish_ends t r /\
    store st' = remove_all (removals t) (store st) /\
    (exists rest,
       finished_analyses (store st) (probed_statuses t) = removals t ++ rest) /\
    (r = Returned tt ->
     removals t = finished_analyses (store st) (probed_statuses t) /\
     length (probed_statuses t) = length (store st)).
Proof.
  unfold update_charon_with_local_jobs_status, log_debug, emit,
    tracked_analyses, bind. cbn [store calls]. intro H.
  apply for_each_pass in H as (t & Hc & Hrfp & Hfpe & Hst & Hpre & Hret).
  cbn [store calls] in *.
  exists ([EvLog LogUpdating] ++ t).
  split; [now rewrite Hc, app_assoc|].
  split; [apply removals_follow_publish_app;
          [now apply quiet_removals_follow_publish | assumption]|].
  split; [apply failed_publish_ends_app;
          [now apply quiet_failed_publish_ends | assumption]|].
  split; [assumption|].
  split; assumption.
Qed.

Lemma for_each_app (before after : list Analysis.t) :
  forall st st1,
    for_each before (update_analysis env) st = (st1, Returned tt) ->
    for_each (before ++ after) (update_analysis env) st =
    for_each after (update_analysis env) st1.
Proof.
  induction before as [|a before IH]; intros st st1 H; simpl in *.
  - unfold ret in H. now injection H as ->.
  - unfold bind in *.
    destruct (update_analysis env a st) as [st2 [[]|e]].
    + now apply IH.
    + discriminate H.
Qed.

(** C1, as amended. In a turn of the loop that completes, one status was
    probed and the analysis is removed exactly once when that status is not
    [ProcessRunning], and not at all when it is; when the status is
    [ProcessRunning], or when the turn raises, nothing is removed and the
    tracking database is left as it is. In a pass, pair each tracked
    analysis with the status that was probed for it: the removed analyses
    are, in order and once each, analyses whose status is not
    [ProcessRunning], and all of them when the pass returns; the tracking
    database changes by these removals only. *)
Theorem removal_of_finished_analyses :
  (forall a st st' r,
     update_analysis env a st = (st', r) ->
     let t := new_calls st st' in
     (r = Returned tt ->
      exists s,
        probed_statuses t = [s] /\
        removals t = (if outcome_eqb s ProcessRunning then [] else [a])) /\
     (In ProcessRunning (probed_statuses t) ->
      removals t = [] /\ store st' = store st) /\
     (forall e, r = Raised e -> removals t = [] /\ store st' = store st) /\
     store st' = remove_all (removals t) (store st)) /\
  (forall st st' r,
     update_charon_with_local_jobs_status env st = (st', r) ->
     let t := new_calls st st' in
     let finished := finished_analyses (store st) (probed_statuses t) in
     (exists rest, finished = removals t ++ rest) /\
     (r = Returned tt ->
      removals t = finished /\
      length (probed_statuses t) = length (store st)) /\
     store st' = remove_all (removals t) (store st)).
Proof.
  split.
  - intros a st st' r H t.
    pose proof (running_analysis_is_kept _ _ _ _ H) as Hrun.
    apply update_analysis_turn in H as (t' & Hc & _ & _ & Hst & Hret & Hraised).
    subst t. rewrite (new_calls_of _ _ _ Hc) in *.
    split; [|split; [|split]].
    + intro Hr. destruct (Hret Hr) as (s & Hs & Hrem). exists s.
      split; [assumption|]. rewrite Hrem. unfold finished_analyses. simpl.
      now destruct (outcome_eqb s ProcessRunning).
    + exact Hrun.
    + intros e Hr. rewrite Hst, (Hraised e Hr). split; reflexivity.
    + exact Hst.
  - intros st st' r H.
    apply update_charon_pass in H as (t & Hc & _ & _ & Hst & Hpre & Hret).
    rewrite (new_calls_of _ _ _ Hc). cbn zeta. auto.
Qed.

(** C2. In a pass, every removal of an analysis comes right after a
    successful update of Charon for that analysis (and the log line that
    follows it); an update of Charon that raises is the last call of the
    pass, so no removal follows it, and its exception is the result. *)
Theorem removal_follows_publish st st' r :
  update_charon_with_local_jobs_status env st = (st', r) ->
  removals_follow_publish (new_calls st st') /\
  failed_publish_ends (new_calls st st') r.
Proof.
  intro H.
  apply update_charon_pass in H as (t & Hc & Hrfp & Hfpe & _).
  rewrite (new_calls_of _ _ _ Hc). auto.
Qed.

(** C3, as amended. When the turn of a tracked analysis raises, the pass
    ends there with that exception: the analyses after it are not
    attempted, whatever they are, and the state is the one that the
    failing turn left. *)
Theorem failure_ends_the_pass st before a after st1 st2 e :
  store st = before ++ a :: after ->
  for_each before (update_analysis env)
    (mkState (store st) (calls st ++ [EvLog LogUpdating])) =
    (st1, Returned tt) ->
  update_analysis env a st1 = (st2, Raised e) ->
  update_charon_with_local_jobs_status env st = (st2, Raised e).
Proof.
  intros Hstore Hbefore Hturn.
  unfold update_charon_with_local_jobs_status, log_debug, emit,
    tracked_analyses, bind. cbn [store calls].
  rewrite Hstore in *. rewrite (for_each_app _ _ _ _ Hbefore).
  simpl. unfold bind. now rewrite Hturn.
Qed.

End Pass.

(** ** The pass on sample inputs *)

(** A finished process and a running batch job: the first is removed, the
    second is kept. *)
Example run_mixed :
  let st' :=
    fst (update_charon_with_local_jobs_status
           (mixed_env [fastq_SR1; fastq_SR2])
           (empty_state [analysis_pid; analysis_job])) in
  removals (calls st') = [analysis_pid] /\
  probed_statuses (calls st') = [FinishedSuccessfully; ProcessRunning] /\
  store st' = [analysis_job].
Proof. vm_compute. repeat split. Qed.

(** C1, as stated, fails when a turn does not complete: the probed status
    is not [ProcessRunning], the update of Charon raises, and the analysis
    is not removed. *)
Lemma finished_analysis_kept_on_failure :
  let env :=
    sample_env FinishedSuccessfully [fastq_SR1; fastq_SR2]
      (Raised charon_down) in
  let st := empty_state [analysis_pid] in
  let st' := fst (update_charon_with_local_jobs_status env st) in
  probed_statuses (new_calls st st') = [FinishedSuccessfully] /\
  removals (new_calls st st') = [] /\
  store st' = [analysis_pid] /\
  snd (update_charon_with_local_jobs_status env st) = Raised charon_down.
Proof. vm_compute. repeat split. Qed.

Lemma removal_of_finished_analyses_witness :
  let env := mixed_env [fastq_SR1; fastq_SR2] in
  (let st := empty_state [analysis_pid] in
   let st' := fst (update_analysis env analysis_pid st) in
   let t := new_calls st st' in
   (Returned tt = Returned tt ->
    exists s,
      probed_statuses t = [s] /\
      removals t =
        (if outcome_eqb s ProcessRunning then [] else [analysis_pid])) /\
   (In ProcessRunning (probed_statuses t) ->
    removals t = [] /\ store st' = store st) /\
   (forall e, Returned tt = Raised e ->
    removals t = [] /\ store st' = store st) /\
   store st' = remove_all (removals t) (store st)) /\
  (let st := empty_state [analysis_pid; analysis_job] in
   let st' := fst (update_charon_with_local_jobs_status env st) in
   let t := new_calls st st' in
   let finished := finished_analyses (store st) (probed_statuses t) in
   (exists rest, finished = removals t ++ rest) /\
   (Returned tt = Returned tt ->
    removals t = finished /\
    length (probed_statuses t) = length (store st)) /\
   store st' = remove_all (removals t) (store st)).
Proof.
  intro env. split.
  - intros st st'.
    apply (proj1 (removal_of_finished_analyses env) analysis_pid st st'
             (Returned tt)).
    vm_compute. reflexivity.
  - intros st st'.
    apply (proj2 (removal_of_finished_analyses env) st st' (Returned tt)).
    vm_compute. reflexivity.
Defined.

Lemma removal_follows_publish_witness :
  let env :=
    sample_env FinishedSuccessfully [fastq_SR1; fastq_SR2]
      (Raised charon_down) in
  let st := empty_state [analysis_pid; analysis_other_sample] in
  let st' := fst (update_charon_with_local_jobs_status env st) in
  removals_follow_publish (new_calls st st') /\
  failed_publish_ends (new_calls st st') (Raised charon_down).
Proof.
  intros env st st'.
  apply (removal_follows_publish env st st' (Raised charon_down)).
  vm_compute. reflexivity.
Defined.

(** The second analysis has no sample in the rebuilt project: its turn
    raises [IndexError] after the first analysis was dealt with, and the
    third analysis is not attempted. *)
Lemma failure_ends_the_pass_witness :
  let env :=
    sample_env FinishedSuccessfully [fastq_SR1; fastq_SR2] (Returned tt) in
  let st :=
    empty_state [analysis_pid; analysis_other_sample; analysis_job] in
  let st1 :=
    fst (update_analysis env analysis_pid
           (mkState (store st) [EvLog LogUpdating])) in
  let st2 := fst (update_analysis env analysis_other_sample st1) in
  update_charon_with_local_jobs_status env st = (st2, Raised IndexError).
Proof.
  intros env st st1 st2.
  apply (failure_ends_the_pass env st [analysis_pid] analysis_other_sample
           [analysis_job] st1 st2 IndexError).
  - reflexivity.
  - vm_compute. reflexivity.
  - vm_compute. reflexivity.
Defined.

(** In that pass the first analysis is removed, and no probe is made for
    the third. *)
Example run_lookup_failure :
  let st' :=
    fst (update_charon_with_local_jobs_status
           (sample_env FinishedSuccessfully [fastq_SR1; fastq_SR2]
              (Returned tt))
           (empty_state [analysis_pid; analysis_other_sample; analysis_job]))
  in
  store st' = [analysis_other_sample; analysis_job] /\
  probe_calls (calls st') =
    [(ProcessStatus, Some 1234%Z, "/base/ANALYSIS/ProjA/S1.exit_code");
     (JobStatus, Some 988%Z, "/base/ANALYSIS/ProjA/S2.exit_code")].
Proof. vm_compute. split; reflexivity. Qed.

(** C3, as stated, fails: the update of Charon raises in the turn of the
    first of two tracked analyses; the exception is the result of the pass,
    nothing is logged or called after it, and the second analysis is not
    attempted. *)
Lemma failed_turn_stops_the_pass :
  let env :=
    sample_env FinishedSuccessfully [fastq_SR1; fastq_SR2]
      (Raised charon_down) in
  let st := empty_state [analysis_pid; analysis_other_sample] in
  let st' := fst (update_charon_with_local_jobs_status env st) in
  snd (update_charon_with_local_jobs_status env st) = Raised charon_down /\
  store st' = [analysis_pid; analysis_other_sample] /\
  calls st' =
    [EvLog LogUpdating;
     EvLog (LogChecking analysis_pid);
     EvProbe ProcessStatus (Some 1234%Z) "/base/ANALYSIS/ProjA/S1.exit_code"
       (Returned FinishedSuccessfully);
     EvLog (LogStatus true (Some 1234%Z) FinishedSuccessfully);
     EvFastqFiles "/base/ANALYSIS/ProjA/S1.tsv"
       (Returned [fastq_SR1; fastq_SR2]);
     EvPublish "ProjA" "S1" "ANALYZED" ["LP1"] [("LP1", ["SR1"; "SR2"])]
       (Raised charon_down)] /\
  ~ In (EvLog (LogChecking analysis_other_sample)) (calls st').
Proof.
  vm_compute. split; [reflexivity|]. split; [reflexivity|].
  split; [reflexivity|].
  intro H. repeat (destruct H as [H|H]; [discriminate H|]). exact H.
Qed.

(** ** Names taken from a path *)

Section PathNames.
Import PosixPath PosixPathFacts.

Lemma rfind_from_tail (p : string) :
  forall i acc,
    acc <= i ->
    let j := rfind_sep_from i acc p in
    (j = acc /\ no_sep p = true) \/
    (i < j /\ no_sep (slice_from (j - i) p) = true).
Proof.
  induction p as [|c p IH]; intros i acc Hacc; simpl.
  - left. auto.
  - destruct (is_sep c) eqn:Hc; simpl.
    + destruct (IH (S i) (S i) (Nat.le_refl _)) as [[Hj Hp]|[Hj Hp]].
      * right. rewrite Hj. split; [lia|].
        replace (S i - i) with 1 by lia. exact Hp.
      * right. split; [lia|].
        replace (rfind_sep_from (S i) (S i) p - i)
          with (S (rfind_sep_from (S i) (S i) p - S i)) by lia.
        exact Hp.
    + destruct (IH (S i) acc (Nat.le_trans _ _ _ Hacc (Nat.le_succ_diag_r i)))
        as [[Hj Hp]|[Hj Hp]].
      * left. auto.
      * right. split; [lia|].
        replace (rfind_sep_from (S i) acc p - i)
          with (S (rfind_sep_from (S i) acc p - S i)) by lia.
        exact Hp.
Qed.

(** The tail of a split has no separator. *)
Lemma split_tail_no_sep (p : string) : no_sep (snd (split p)) = true.
Proof.
  unfold split, rfind_sep_succ. cbn [snd].
  destruct (rfind_from_tail p 0 0 (Nat.le_refl _)) as [[Hj Hp]|[Hj Hp]].
  - rewrite Hj. destruct p; exact Hp.
  - now rewrite Nat.sub_0_r in Hp.
Qed.

Lemma parts_no_sep (path : string) :
  let parts := split_fastq_file_path path in
  no_sep (fastq_file_name parts) = true /\
  no_sep (seqrun_name parts) = true /\
  no_sep (libprep_name parts) = true /\
  no_sep (sample_name parts) = true /\
  no_sep (project_name parts) = true.
Proof.
  destruct (split_fastq_file_path_dirnames path)
    as (_ & _ & _ & _ & _ & _ & H1 & H2 & H3 & H4 & H5).
  cbn zeta. rewrite H1, H2, H3, H4, H5.
  repeat split; apply split_tail_no_sep.
Qed.

End PathNames.

(** ** The project that is rebuilt *)

Section RebuiltProject.
Import PosixPath.

Lemma rebuild_some (paths : list string) (p : NGIProject) :
  _project_from_fastq_file_paths paths = Some p ->
  exists path rest,
    paths = path :: rest /\
    p = add_paths paths (new_project (split_fastq_file_path path)).
Proof.
  destruct paths as [|path rest]; intro H.
  - discriminate H.
  - rewrite rebuild_cons in H. injection H as <-. eauto.
Qed.

(** The samples, libpreps and seqruns of the project are exactly those
    named by the paths: nothing is left out and nothing is made up. *)
Theorem project_names_are_path_names (paths : list string) (p : NGIProject) :
  _project_from_fastq_file_paths paths = Some p ->
  (forall s,
     In s (sample_names p) <->
     exists q, In q paths /\ sample_name (split_fastq_file_path q) = s) /\
  (forall s l,
     In l (libprep_names p s) <->
     exists q, In q paths /\
       sample_name (split_fastq_file_path q) = s /\
       libprep_name (split_fastq_file_path q) = l) /\
  (forall s l r,
     In r (seqrun_names p s l) <->
     exists q, In q paths /\
       sample_name (split_fastq_file_path q) = s /\
       libprep_name (split_fastq_file_path q) = l /\
       seqrun_name (split_fastq_file_path q) = r).
Proof.
  intro H. apply rebuild_some in H as (path & rest & -> & ->).
  split; [|split].
  - intro s. rewrite sample_names_add_paths. simpl. tauto.
  - intros s l. rewrite libprep_names_add_paths. simpl. tauto.
  - intros s l r. rewrite seqrun_names_add_paths. simpl. tauto.
Qed.

(** The file names under a seqrun are those of the paths under it, in
    the order of the paths, a repeated path giving a repeated name. *)
Theorem project_files_are_path_files (paths : list string) (p : NGIProject)
    (s l r : string) :
  _project_from_fastq_file_paths paths = Some p ->
  fastq_file_names p s l r = files_under s l r paths.
Proof.
  intro H. apply rebuild_some in H as (path & rest & -> & ->).
  now rewrite fastq_file_names_add_paths.
Qed.

(** No name in the project has a separator in it: each one is a single
    path segment. *)
Theorem project_names_have_no_separator (paths : list string)
    (p : NGIProject) :
  _project_from_fastq_file_paths paths = Some p ->
  no_sep (proj_name p) = true /\
  (forall s, In s (sample_names p) -> no_sep s = true) /\
  (forall s l, In l (libprep_names p s) -> no_sep l = true) /\
  (forall s l r, In r (seqrun_names p s l) -> no_sep r = true) /\
  (forall s l r f, In f (fastq_file_names p s l r) -> no_sep f = true).
Proof.
  intro H. apply rebuild_some in H as (path & rest & -> & ->).
  destruct (proj_name_add_paths (path :: rest)
              (new_project (split_fastq_file_path path))) as [Hn _].
  split; [|split; [|split; [|split]]].
  - rewrite Hn. exact (proj2 (proj2 (proj2 (proj2 (parts_no_sep path))))).
  - intros s Hs. apply sample_names_add_paths in Hs as [[]|(q & _ & <-)].
    exact (proj1 (proj2 (proj2 (proj2 (parts_no_sep q))))).
  - intros s l Hl.
    apply libprep_names_add_paths in Hl as [[]|(q & _ & _ & <-)].
    exact (proj1 (proj2 (proj2 (parts_no_sep q)))).
  - intros s l r Hr.
    apply seqrun_names_add_paths in Hr as [[]|(q & _ & _ & _ & <-)].
    exact (proj1 (proj2 (parts_no_sep q))).
  - intros s l r f Hf. rewrite fastq_file_names_add_paths in Hf.
    apply in_app_or in Hf as [[]|Hf].
    unfold files_under in Hf.
    apply in_flat_map in Hf as (q & _ & Hq). cbn zeta in Hq.
    destruct (under_seqrun s l r (split_fastq_file_path q)); [|destruct Hq].
    destruct Hq as [<-|[]]. exact (proj1 (parts_no_sep q)).
Qed.

(** A file name without directory. *)
Lemma split_no_sep (file : string) :
  no_sep file = true -> split file = (""%string, file).
Proof.
  intro H. unfold split, rfind_sep_succ.
  rewrite PosixPathFacts.rfind_no_sep by assumption.
  destruct file; reflexivity.
Qed.

(** A path without directories is no error: the seqrun, the libprep, the
    sample and the project all get the empty name, and so does the base
    path. *)
Theorem bare_file_name_gives_empty_names (file : string) :
  no_sep file = true ->
  split_fastq_file_path file =
    mkPathParts file "" "" "" "" "" "" "" "" "" "" /\
  _project_from_fastq_file_paths [file] =
    Some (mkProject "" "" "" ""
            [mkSample "" ""
               [mkLibraryPrep "" "" [mkSeqRun "" "" [file]]]]).
Proof.
  intro H.
  assert (Hparts : split_fastq_file_path file =
                   mkPathParts file "" "" "" "" "" "" "" "" "" "").
  { unfold split_fastq_file_path. rewrite (split_no_sep file H). reflexivity. }
  split; [exact Hparts|].
  unfold _project_from_fastq_file_paths. cbn [fold_left].
  unfold add_fastq_file_path. rewrite Hparts. reflexivity.
Qed.

End RebuiltProject.

(** ** Invariants of the hierarchy *)

Section SubItemInvariants.

Context {A : Type} (name_of : A -> string) (name : string) (fresh : A)
  (then_do : A -> A).
Hypothesis fresh_name : name_of fresh = name.
Hypothesis then_do_name : forall x, name_of (then_do x) = name_of x.

Lemma NoDup_add_subitem (items : list A) :
  NoDup (map name_of items) ->
  NoDup (map name_of (add_subitem name_of name fresh then_do items)).
Proof.
  induction items as [|x rest IH]; simpl; intro H.
  - constructor; [intros []|constructor].
  - apply NoDup_cons_iff in H as [Hnotin Hrest].
    destruct (String.eqb (name_of x) name) eqn:E; simpl.
    + rewrite then_do_name. now constructor.
    + constructor; [|now apply IH].
      rewrite (names_add_subitem name_of name fresh then_do
                 fresh_name then_do_name).
      intros [Hin|Heq]; [contradiction|].
      apply String.eqb_neq in E. contradiction.
Qed.

Lemma Forall_add_subitem (Q : A -> Prop) (items : list A) :
  Q (then_do fresh) -> (forall x, Q x -> Q (then_do x)) ->
  Forall Q items ->
  Forall Q (add_subitem name_of name fresh then_do items).
Proof.
  intros Hfresh Hthen.
  induction items as [|x rest IH]; simpl; intro H.
  - constructor; [assumption|constructor].
  - apply Forall_cons_iff in H as [Hx Hrest].
    destruct (String.eqb (name_of x) name); constructor; auto.
Qed.

Lemma list_sum_add_subitem (size : A -> nat) (items : list A) :
  size (then_do fresh) = 1 ->
  (forall x, size (then_do x) = S (size x)) ->
  list_sum (map size (add_subitem name_of name fresh then_do items)) =
  S (list_sum (map size items)).
Proof.
  intros Hfresh Hthen.
  induction items as [|x rest IH]; simpl.
  - rewrite Hfresh. reflexivity.
  - destruct (String.eqb (name_of x) name); simpl.
    + rewrite Hthen. reflexivity.
    + rewrite IH. lia.
Qed.

End SubItemInvariants.

Section ProjectInvariants.

Lemma unique_names_add_parts (parts : PathParts) (p : NGIProject) :
  unique_names p -> unique_names (add_parts parts p).
Proof.
  intros [Hs Hl]. unfold unique_names, sample_names, add_parts, add_sample.
  cbn [proj_samples]. split.
  - apply NoDup_add_subitem; auto.
  - apply Forall_add_subitem; [| |assumption].
    + unfold unique_libpreps, add_libprep. cbn. split.
      * constructor; [intros []|constructor].
      * constructor; [|constructor].
        unfold unique_seqruns. cbn. constructor; [intros []|constructor].
    + intros x [Hx1 Hx2]. unfold unique_libpreps, add_libprep.
      cbn [samp_libpreps]. split.
      * apply NoDup_add_subitem; auto.
      * apply Forall_add_subitem; [| |assumption].
        -- unfold unique_seqruns. cbn. constructor; [intros []|constructor].
        -- intros y Hy. unfold unique_seqruns, add_seqrun in *.
           cbn [lib_seqruns]. apply NoDup_add_subitem; auto.
Qed.

Lemma unique_names_add_paths (paths : list string) (p : NGIProject) :
  unique_names p -> unique_names (add_paths paths p).
Proof.
  revert p. induction paths as [|q rest IH]; intros p H.
  - exact H.
  - unfold add_paths in *. cbn [fold_left].
    apply IH. now apply unique_names_add_parts.
Qed.

Lemma rebuilt_unique_names (paths : list string) (p : NGIProject) :
  _project_from_fastq_file_paths paths = Some p -> unique_names p.
Proof.
  intro H. apply rebuild_some in H as (path & rest & -> & ->).
  apply unique_names_add_paths. split; constructor.
Qed.

(** In the project, no two samples have the same name, nor two libpreps
    of a sample, nor two seqruns of a libprep. *)
Theorem project_has_unique_names (paths : list string) (p : NGIProject) :
  _project_from_fastq_file_paths paths = Some p ->
  NoDup (sample_names p) /\
  (forall s, In s (proj_samples p) ->
     NoDup (map lib_name (samp_libpreps s)) /\
     forall l, In l (samp_libpreps s) ->
       NoDup (map run_name (lib_seqruns l))).
Proof.
  intro H. apply rebuilt_unique_names in H as [Hs Hl].
  split; [assumption|].
  intros s Hin. rewrite Forall_forall in Hl.
  destruct (Hl s Hin) as [H1 H2]. split; [assumption|].
  intros l Hlin. rewrite Forall_forall in H2. exact (H2 l Hlin).
Qed.

Lemma total_files_add_parts (parts : PathParts) (p : NGIProject) :
  total_files (add_parts parts p) = S (total_files p).
Proof.
  unfold total_files, add_parts, add_sample. cbn [proj_samples].
  apply list_sum_add_subitem.
  - reflexivity.
  - intro s. unfold sample_files, add_libprep. cbn [samp_libpreps].
    apply list_sum_add_subitem.
    + reflexivity.
    + intro l. unfold libprep_files, add_seqrun. cbn [lib_seqruns].
      apply list_sum_add_subitem.
      * reflexivity.
      * intro r. unfold seqrun_files, add_fastq_files. cbn.
        rewrite length_app. simpl. lia.
Qed.

(** The project holds one file name per path: none is lost and none is
    merged with another. *)
Theorem project_holds_one_file_per_path (paths : list string)
    (p : NGIProject) :
  _project_from_fastq_file_paths paths = Some p ->
  total_files p = length paths.
Proof.
  intro H. apply rebuild_some in H as (path & rest & -> & ->).
  assert (G : forall l q, total_files (add_paths l q) = length l + total_files q).
  { induction l as [|x l IH]; intro q; [reflexivity|].
    unfold add_paths in *. cbn [fold_left length].
    rewrite IH, total_files_add_parts. lia. }
  rewrite G. unfold total_files, new_project. simpl. lia.
Qed.

End ProjectInvariants.

(** A turn is read from the equations that its run left. *)
Ltac use_equations :=
  repeat match goal with
  | H : ?l = Returned _ |- context [?l] => rewrite H
  | H : ?l = Raised _ |- context [?l] => rewrite H
  end.

Ltac read_turn :=
  cbn [store calls]; repeat rewrite <- app_assoc; cbn [app];
  rewrite new_calls_app;
  cbn [fastq_lists publish_calls probed_statuses flat_map app].

(** ** What a turn of the loop sends out *)

Section Anatomy.

Variable env : Collaborators.

(** A turn, read from its calls: the list of fastq files, the lookup of
    the sample, the translation of the status and the update of Charon. *)
Lemma update_analysis_anatomy a st st' r :
  update_analysis env a st = (st', r) ->
  let t := new_calls st st' in
  match fastq_lists t with
  | [] => publish_calls t = [] /\ exists e, r = Raised e
  | [paths] =>
      exists ps,
        probed_statuses t = [ps] /\
        match iter_project (_project_from_fastq_file_paths paths) with
        | Raised e => r = Raised e /\ publish_calls t = []
        | Returned samples =>
            match sample_of a samples with
            | Raised e => r = Raised e /\ publish_calls t = []
            | Returned sample_obj =>
                match analysis_status_from_process_status env ps with
                | Raised e => r = Raised e /\ publish_calls t = []
                | Returned status =>
                    exists res,
                      publish_calls t =
                        [mkPublishCall (Analysis.project_id a)
                           (Analysis.sample_id a) status
                           (map fst (restrict_to_seqruns_of sample_obj))
                           (restrict_to_seqruns_of sample_obj) res] /\
                      match res with
                      | Returned _ => r = Returned tt
                      | Raised e => r = Raised e
                      end
                end
            end
        end
  | _ => False
  end.
Proof.
  intro H. unfold update_analysis in H. invert_run.
  all: try match goal with
  | H : remove_analysis _ ?s _ _ = _ |- _ =>
      unfold remove_analysis, tracking_remove, removed_from, ret in H;
      destruct s; cbn in H; injection H as <- <-
  end.
  all: repeat match goal with u : unit |- _ => destruct u end.
  all: read_turn; unfold sample_of;
    try (eexists; split; [reflexivity|]); use_equations;
    try (eexists; split; [reflexivity|]); eauto; try reflexivity.
Qed.

End Anatomy.

Section Lookups.

Context {A : Type} (name_of : A -> string).

Lemma filter_by_name_none (n : string) (items : list A) :
  ~ In n (map name_of items) ->
  filter (fun x => String.eqb (name_of x) n) items = [].
Proof.
  induction items as [|x rest IH]; simpl; intro H; [reflexivity|].
  destruct (String.eqb (name_of x) n) eqn:E.
  - apply String.eqb_eq in E. exfalso. apply H. now left.
  - apply IH. intro Hin. apply H. now right.
Qed.

Lemma pop_filter_unique (n : string) (items : list A) (x : A) :
  NoDup (map name_of items) ->
  pop (filter (fun y => String.eqb (name_of y) n) items) = Returned x ->
  find_by_name name_of n items = Some x.
Proof.
  unfold find_by_name.
  induction items as [|y rest IH]; simpl; intros Hnd H; [discriminate H|].
  apply NoDup_cons_iff in Hnd as [Hnotin Hnd].
  destruct (String.eqb (name_of y) n) eqn:E.
  - apply String.eqb_eq in E. rewrite <- E in H.
    rewrite (filter_by_name_none (name_of y) rest Hnotin) in H.
    simpl in H. now injection H as ->.
  - now apply IH.
Qed.

Lemma find_in_unique (items : list A) (x : A) :
  NoDup (map name_of items) -> In x items ->
  find_by_name name_of (name_of x) items = Some x.
Proof.
  unfold find_by_name.
  induction items as [|y rest IH]; simpl; intros Hnd Hin; [destruct Hin|].
  apply NoDup_cons_iff in Hnd as [Hnotin Hnd].
  destruct Hin as [->|Hin].
  - now rewrite String.eqb_refl.
  - destruct (String.eqb (name_of y) (name_of x)) eqn:E.
    + apply String.eqb_eq in E. exfalso. apply Hnotin. rewrite E.
      now apply in_map.
    + now apply IH.
Qed.

Lemma find_by_name_some (n : string) (items : list A) (x : A) :
  find_by_name name_of n items = Some x -> In x items /\ name_of x = n.
Proof.
  unfold find_by_name. intro H. apply find_some in H as [Hin E].
  apply String.eqb_eq in E. auto.
Qed.

End Lookups.

Section Scopes.

Lemma dict_set_fresh {V : Type} (d : list (string * V)) (k : string) (v : V) :
  ~ In k (map fst d) -> dict_set d k v = d ++ [(k, v)].
Proof.
  induction d as [|[k' v'] d IH]; simpl; intro H; [reflexivity|].
  destruct (String.eqb k' k) eqn:E.
  - apply String.eqb_eq in E. exfalso. apply H. now left.
  - rewrite IH; [reflexivity|]. intro Hin. apply H. now right.
Qed.

Lemma restrict_to_seqruns_unique (s : NGISample) :
  NoDup (map lib_name (samp_libpreps s)) ->
  restrict_to_seqruns_of s =
  map (fun l => (lib_name l, map run_name (lib_seqruns l))) (samp_libpreps s).
Proof.
  unfold restrict_to_seqruns_of.
  set (entry := fun l => (lib_name l, map run_name (lib_seqruns l))).
  assert (G : forall items acc,
    NoDup (map fst acc ++ map lib_name items) ->
    fold_left
      (fun d libprep_obj =>
         dict_set d (lib_name libprep_obj)
           (map run_name (lib_seqruns libprep_obj)))
      items acc = acc ++ map entry items).
  { induction items as [|l items IH]; intros acc Hnd; simpl.
    - now rewrite app_nil_r.
    - rewrite dict_set_fresh.
      + rewrite IH.
        * now rewrite <- app_assoc.
        * rewrite map_app. simpl. now rewrite <- app_assoc.
      + simpl in Hnd. apply NoDup_remove_2 in Hnd.
        intro Hin. apply Hnd. apply in_or_app. now left. }
  intro Hnd. now rewrite (G _ [] Hnd).
Qed.

End Scopes.

Section TurnExtras.

Variable env : Collaborators.

Lemma iter_project_rebuilt (paths : list string) (samples : list NGISample) :
  iter_project (_project_from_fastq_file_paths paths) = Returned samples ->
  exists p,
    _project_from_fastq_file_paths paths = Some p /\ samples = proj_samples p.
Proof.
  destruct (_project_from_fastq_file_paths paths) as [p|]; simpl; intro H.
  - injection H as <-. eauto.
  - discriminate H.
Qed.

(** What is sent to Charon in a turn: the project id and sample id of the
    analysis, with the translation of the status that was probed. *)
Theorem published_status_is_translated a st st' r c :
  update_analysis env a st = (st', r) ->
  In c (publish_calls (new_calls st st')) ->
  (pub_project_id c, pub_sample_id c) = target_of a /\
  exists ps,
    probed_statuses (new_calls st st') = [ps] /\
    analysis_status_from_process_status env ps = Returned (pub_status c).
Proof.
  intros H Hin. apply update_analysis_anatomy in H. cbn zeta in H.
  destruct (fastq_lists (new_calls st st')) as [|paths [|]];
    [destruct H as [H _]; rewrite H in Hin; destruct Hin | | destruct H].
  destruct H as (ps & Hps & H).
  destruct (iter_project _) as [samples|e];
    [|destruct H as [_ H]; rewrite H in Hin; destruct Hin].
  destruct (sample_of a samples) as [sample_obj|e];
    [|destruct H as [_ H]; rewrite H in Hin; destruct Hin].
  destruct (analysis_status_from_process_status env ps) as [status|e] eqn:Et;
    [|destruct H as [_ H]; rewrite H in Hin; destruct Hin].
  destruct H as (res & Hc & _). rewrite Hc in Hin.
  destruct Hin as [<-|[]]. split; [reflexivity|].
  exists ps. split; [assumption|exact Et].
Qed.

(** The scope of an update of Charon: the libpreps of the sample of the
    analysis in the project rebuilt from the fastq files that the TSV file
    lists, and for each of them its seqruns. *)
Theorem published_scope_is_sample_scope a st st' r c :
  update_analysis env a st = (st', r) ->
  In c (publish_calls (new_calls st st')) ->
  exists paths p,
    fastq_lists (new_calls st st') = [paths] /\
    _project_from_fastq_file_paths paths = Some p /\
    In (Analysis.sample_id a) (sample_names p) /\
    pub_libpreps c = libprep_names p (Analysis.sample_id a) /\
    pub_seqruns c = seqrun_scope p (Analysis.sample_id a).
Proof.
  intros H Hin. apply update_analysis_anatomy in H. cbn zeta in H.
  destruct (fastq_lists (new_calls st st')) as [|paths [|]];
    [destruct H as [H _]; rewrite H in Hin; destruct Hin | | destruct H].
  destruct H as (ps & Hps & H).
  destruct (iter_project _) as [samples|e] eqn:Ei;
    [|destruct H as [_ H]; rewrite H in Hin; destruct Hin].
  destruct (sample_of a samples) as [sample_obj|e] eqn:Es;
    [|destruct H as [_ H]; rewrite H in Hin; destruct Hin].
  destruct (analysis_status_from_process_status env ps) as [status|e];
    [|destruct H as [_ H]; rewrite H in Hin; destruct Hin].
  destruct H as (res & Hc & _). rewrite Hc in Hin.
  destruct Hin as [<-|[]]. cbn [pub_libpreps pub_seqruns].
  apply iter_project_rebuilt in Ei as (p & Hp & ->).
  destruct (rebuilt_unique_names _ _ Hp) as [Hnd Hlibs].
  apply (pop_filter_unique samp_name) in Es; [|exact Hnd].
  destruct (find_by_name_some _ _ _ _ Es) as [Hsin Hsname].
  rewrite Forall_forall in Hlibs. destruct (Hlibs _ Hsin) as [Hlnd _].
  exists paths, p. split; [reflexivity|]. split; [assumption|].
  split.
  { rewrite <- Hsname. unfold sample_names. now apply in_map. }
  rewrite (restrict_to_seqruns_unique _ Hlnd).
  unfold seqrun_scope, libprep_names, seqrun_names. rewrite Es.
  rewrite !map_map. cbn [fst]. split; [reflexivity|].
  apply map_ext_in. intros l Hl.
  now rewrite (find_in_unique lib_name _ _ Hlnd Hl).
Qed.

Lemma raised_turn_keeps_store a st st' e :
  update_analysis env a st = (st', Raised e) ->
  removals (new_calls st st') = [] /\ store st' = store st.
Proof.
  intro H.
  apply update_analysis_turn in H as (t & Hc & _ & _ & Hst & _ & Hraised).
  rewrite (new_calls_of _ _ _ Hc), Hst, (Hraised e eq_refl).
  split; reflexivity.
Qed.

(** When none of the listed fastq files lies under the sample of the
    analysis, the turn raises [IndexError]: Charon is not updated and the
    analysis stays tracked. *)
Theorem missing_sample_raises_IndexError a st st' r paths :
  update_analysis env a st = (st', r) ->
  fastq_lists (new_calls st st') = [paths] ->
  paths <> [] ->
  (forall q, In q paths ->
     sample_name (split_fastq_file_path q) <> Analysis.sample_id a) ->
  r = Raised IndexError /\
  publish_calls (new_calls st st') = [] /\
  removals (new_calls st st') = [] /\
  store st' = store st.
Proof.
  intros H Hlist Hne Hnone. pose proof H as Hrun.
  apply update_analysis_anatomy in H. cbn zeta in H. rewrite Hlist in H.
  destruct H as (ps & _ & H).
  destruct (_project_from_fastq_file_paths paths) as [p|] eqn:Hp;
    [|destruct paths; [contradiction | rewrite rebuild_cons in Hp;
                                        discriminate Hp]].
  cbn [iter_project] in H.
  assert (Hs : sample_of a (proj_samples p) = Raised IndexError).
  { unfold sample_of. rewrite filter_by_name_none; [reflexivity|].
    intro Hin. change (In (Analysis.sample_id a) (sample_names p)) in Hin.
    apply rebuild_some in Hp as (path & rest & -> & ->).
    apply sample_names_add_paths in Hin as [[]|(q & Hq & Hname)].
    exact (Hnone q Hq Hname). }
  rewrite Hs in H. destruct H as [-> Hpub].
  split; [reflexivity|]. split; [assumption|].
  exact (raised_turn_keeps_store _ _ _ _ Hrun).
Qed.

(** When the TSV file lists no fastq file, the turn raises [TypeError]:
    Charon is not updated and the analysis stays tracked. *)
Theorem no_fastq_files_raises_TypeError a st st' r :
  update_analysis env a st = (st', r) ->
  fastq_lists (new_calls st st') = [[]] ->
  r = Raised TypeError /\
  publish_calls (new_calls st st') = [] /\
  removals (new_calls st st') = [] /\
  store st' = store st.
Proof.
  intros H Hlist. pose proof H as Hrun.
  apply update_analysis_anatomy in H. cbn zeta in H. rewrite Hlist in H.
  destruct H as (ps & _ & H). cbn in H. destruct H as [-> Hpub].
  split; [reflexivity|]. split; [assumption|].
  exact (raised_turn_keeps_store _ _ _ _ Hrun).
Qed.

End TurnExtras.

Section PassExtras.

Variable env : Collaborators.

Lemma publish_calls_app t1 t2 :
  publish_calls (t1 ++ t2) = publish_calls t1 ++ publish_calls t2.
Proof. apply flat_map_app. Qed.

Lemma publish_targets_app t1 t2 :
  publish_targets (t1 ++ t2) = publish_targets t1 ++ publish_targets t2.
Proof. unfold publish_targets. now rewrite publish_calls_app, map_app. Qed.

Lemma update_analysis_grows a st st' r :
  update_analysis env a st = (st', r) ->
  calls st' = calls st ++ new_calls st st'.
Proof.
  intro H. apply update_analysis_turn in H as (t & Hc & _).
  now rewrite (new_calls_of _ _ _ Hc).
Qed.

Lemma for_each_grows tracked st st' r :
  for_each tracked (update_analysis env) st = (st', r) ->
  calls st' = calls st ++ new_calls st st'.
Proof.
  intro H. apply for_each_pass in H as (t & Hc & _).
  now rewrite (new_calls_of _ _ _ Hc).
Qed.

(** A property of the calls of a pass is proved turn by turn. *)
Lemma for_each_calls_ind
    (P : list Analysis.t -> list Event -> result unit -> Prop) :
  P [] [] (Returned tt) ->
  (forall a l st st' e,
     update_analysis env a st = (st', Raised e) ->
     P (a :: l) (new_calls st st') (Raised e)) ->
  (forall a l st st1 t r,
     update_analysis env a st = (st1, Returned tt) ->
     P l t r -> P (a :: l) (new_calls st st1 ++ t) r) ->
  forall tracked st st' r,
    for_each tracked (update_analysis env) st = (st', r) ->
    P tracked (new_calls st st') r.
Proof.
  intros Hnil Hraised Hreturned.
  induction tracked as [|a tracked IH]; intros st st' r H; simpl in H.
  - unfold ret in H. injection H as <- <-. now rewrite new_calls_refl.
  - apply bind_inv in H as [(e & H & ->)|(st1 & [] & H1 & H2)].
    + now apply Hraised.
    + pose proof (update_analysis_grows _ _ _ _ H1) as G1.
      pose proof (for_each_grows _ _ _ _ H2) as G2.
      assert (E : new_calls st st' = new_calls st st1 ++ new_calls st1 st').
      { apply new_calls_of. rewrite G2, G1 at 1. now rewrite app_assoc. }
      rewrite E. apply (Hreturned a tracked st st1); [assumption|].
      now apply IH.
Qed.

Lemma update_charon_calls_ind
    (P : list Analysis.t -> list Event -> result unit -> Prop)
    (st st' : State) (r : result unit) :
  P [] [] (Returned tt) ->
  (forall a l st st' e,
     update_analysis env a st = (st', Raised e) ->
     P (a :: l) (new_calls st st') (Raised e)) ->
  (forall a l st st1 t r,
     update_analysis env a st = (st1, Returned tt) ->
     P l t r -> P (a :: l) (new_calls st st1 ++ t) r) ->
  update_charon_with_local_jobs_status env st = (st', r) ->
  exists t,
    new_calls st st' = EvLog LogUpdating :: t /\ P (store st) t r.
Proof.
  intros Hnil Hraised Hreturned.
  unfold update_charon_with_local_jobs_status, log_debug, emit,
    tracked_analyses, bind. cbn [store calls]. intro H.
  pose proof (for_each_grows _ _ _ _ H) as G. cbn [calls] in G.
  exists (new_calls
            (mkState (store st) (calls st ++ [EvLog LogUpdating])) st').
  split.
  - apply new_calls_of. rewrite G at 1. now rewrite <- app_assoc.
  - exact (for_each_calls_ind P Hnil Hraised Hreturned _ _ _ _ H).
Qed.

Lemma turn_publishes a st st' r :
  update_analysis env a st = (st', r) ->
  let t := new_calls st st' in
  (publish_targets t = [] \/ publish_targets t = [target_of a]) /\
  (r = Returned tt ->
   exists ps c,
     probed_statuses t = [ps] /\
     publish_calls t = [c] /\
     (pub_project_id c, pub_sample_id c) = target_of a /\
     analysis_status_from_process_status env ps = Returned (pub_status c) /\
     pub_result c = Returned tt).
Proof.
  intro H. apply update_analysis_anatomy in H. cbn zeta in *.
  unfold publish_targets.
  destruct (fastq_lists (new_calls st st')) as [|paths [|]];
    [destruct H as [-> [e ->]]; split; [now left|discriminate]
    | | destruct H].
  destruct H as (ps & Hps & H).
  destruct (iter_project _) as [samples|e];
    [|destruct H as [-> ->]; split; [now left|discriminate]].
  destruct (sample_of a samples) as [sample_obj|e];
    [|destruct H as [-> ->]; split; [now left|discriminate]].
  destruct (analysis_status_from_process_status env ps) as [status|e] eqn:Et;
    [|destruct H as [-> ->]; split; [now left|discriminate]].
  destruct H as (res & -> & Hres). split; [now right|].
  intro Hr. destruct res as [[]|e]; [|congruence].
  eexists ps, _. repeat split; try reflexivity; assumption.
Qed.

Lemma finished_analyses_in tracked statuses x :
  In x (finished_analyses tracked statuses) -> In x tracked.
Proof.
  unfold finished_analyses. intro H.
  apply in_map_iff in H as ([a s] & <- & H).
  apply filter_In in H as [H _]. now apply in_combine_l in H.
Qed.

Lemma remove_all_in rs tracked x :
  In x (remove_all rs tracked) <-> In x tracked /\ ~ In x rs.
Proof.
  revert tracked. induction rs as [|a rs IH]; intro tracked.
  - simpl. tauto.
  - unfold remove_all in *. cbn [fold_left]. rewrite IH, filter_In.
    rewrite negb_true_iff. simpl. split.
    + intros [[Hin Hne] Hrs]. split; [assumption|].
      intros [->|Hx]; [|contradiction].
      assert (E : Analysis.eqb x x = true) by now apply analysis_eqb_eq.
      congruence.
    + intros [Hin Hn]. split; [split; [assumption|]|tauto].
      destruct (Analysis.eqb x a) eqn:E; [|reflexivity].
      apply analysis_eqb_eq in E. subst. exfalso. apply Hn. now left.
Qed.

(** In a pass Charon is updated for the tracked analyses in their order,
    at most once each and only up to the turn that raises; when the pass
    returns, it was updated exactly once for every tracked analysis, also
    for one that is still running, each time with the translation of the
    status probed for that analysis. *)
Theorem charon_updated_once_per_analysis st st' r :
  update_charon_with_local_jobs_status env st = (st', r) ->
  let t := new_calls st st' in
  (exists rest, map target_of (store st) = publish_targets t ++ rest) /\
  (r = Returned tt ->
   publish_targets t = map target_of (store st) /\
   Forall2 (published_for env) (publish_calls t) (probed_statuses t)).
Proof.
  intro H.
  apply (update_charon_calls_ind
           (fun l t r =>
              (exists rest, map target_of l = publish_targets t ++ rest) /\
              (r = Returned tt ->
               publish_targets t = map target_of l /\
               Forall2 (published_for env) (publish_calls t)
                 (probed_statuses t)))) in H.
  - destruct H as (t & -> & Ht). exact Ht.
  - split; [exists []; reflexivity|]. intros _. split; constructor.
  - intros a l s s' e Hturn. split; [|discriminate].
    destruct (turn_publishes _ _ _ _ Hturn) as [[->| ->] _].
    + eexists. reflexivity.
    + exists (map target_of l). reflexivity.
  - intros a l s s1 t r0 Hturn [[rest Hpre] Hret].
    destruct (turn_publishes _ _ _ _ Hturn) as [_ Hc].
    destruct (Hc eq_refl) as (ps & c & Hps & Hcalls & Htarget & Htr & Hres).
    rewrite publish_targets_app, publish_calls_app, probed_statuses_app.
    unfold publish_targets at 1 3. rewrite Hcalls, Hps. cbn [map app].
    rewrite Htarget. split.
    + exists rest. now rewrite Hpre.
    + intro Hr. destruct (Hret Hr) as [-> Hall]. split; [reflexivity|].
      constructor; [split; assumption | assumption].
Qed.

(** A pass removes only analyses that were tracked when it started, adds
    none, and an analysis that was removed is no longer tracked. *)
Theorem tracking_store_only_shrinks st st' r :
  update_charon_with_local_jobs_status env st = (st', r) ->
  (forall x, In x (removals (new_calls st st')) -> In x (store st)) /\
  (forall x,
     In x (store st') <->
     In x (store st) /\ ~ In x (removals (new_calls st st'))).
Proof.
  intro H.
  apply update_charon_pass in H as (t & Hc & _ & _ & Hst & [rest Hpre] & _).
  rewrite (new_calls_of _ _ _ Hc). split.
  - intros x Hx. apply (finished_analyses_in (store st) (probed_statuses t)).
    rewrite Hpre. apply in_or_app. now left.
  - intro x. rewrite Hst. apply remove_all_in.
Qed.

Lemma existsb_analysis x l :
  existsb (Analysis.eqb x) l = true <-> In x l.
Proof.
  rewrite existsb_exists. split.
  - intros (y & Hin & E). apply analysis_eqb_eq in E. now subst.
  - intro Hin. exists x. split; [assumption|]. now apply analysis_eqb_eq.
Qed.

Lemma remove_all_filter rs tracked :
  remove_all rs tracked =
  filter (fun x => negb (existsb (Analysis.eqb x) rs)) tracked.
Proof.
  revert tracked. induction rs as [|a rs IH]; intro tracked.
  - simpl. induction tracked as [|x l IHl]; simpl; [reflexivity|].
    now rewrite <- IHl.
  - unfold remove_all in *. cbn [fold_left]. rewrite IH.
    induction tracked as [|x l IHl]; simpl; [reflexivity|].
    destruct (Analysis.eqb x a); simpl; rewrite IHl; reflexivity.
Qed.

Lemma running_analyses_in tracked statuses x :
  In x (running_analyses tracked statuses) -> In x tracked.
Proof.
  unfold running_analyses. intro H.
  apply in_map_iff in H as ([a s] & <- & H).
  apply filter_In in H as [H _]. now apply in_combine_l in H.
Qed.

Lemma finished_analyses_step a tracked s statuses :
  finished_analyses (a :: tracked) (s :: statuses) =
  (if outcome_eqb s ProcessRunning then [] else [a]) ++
  finished_analyses tracked statuses.
Proof.
  unfold finished_analyses. simpl.
  now destruct (outcome_eqb s ProcessRunning).
Qed.

Lemma running_analyses_step a tracked s statuses :
  running_analyses (a :: tracked) (s :: statuses) =
  (if outcome_eqb s ProcessRunning then [a] else []) ++
  running_analyses tracked statuses.
Proof.
  unfold running_analyses. simpl.
  now destruct (outcome_eqb s ProcessRunning).
Qed.

Lemma finished_removed_leaves_running tracked :
  NoDup tracked ->
  forall statuses extra,
    length statuses = length tracked ->
    (forall x, In x extra -> ~ In x tracked) ->
    filter
      (fun x =>
         negb (existsb (Analysis.eqb x)
                 (extra ++ finished_analyses tracked statuses)))
      tracked
    = running_analyses tracked statuses.
Proof.
  induction 1 as [|a l Hnotin Hnd IH]; intros statuses extra Hlen Hextra.
  - reflexivity.
  - destruct statuses as [|s statuses]; [discriminate Hlen|].
    injection Hlen as Hlen.
    rewrite finished_analyses_step, running_analyses_step. cbn [filter].
    destruct (outcome_eqb s ProcessRunning) eqn:Es; cbn [app].
    + assert (E : existsb (Analysis.eqb a)
                    (extra ++ finished_analyses l statuses) = false).
      { apply not_true_is_false. rewrite existsb_analysis.
        intro Hin. apply in_app_or in Hin as [Hin|Hin].
        - apply (Hextra a Hin). now left.
        - apply Hnotin. exact (finished_analyses_in _ _ _ Hin). }
      rewrite E. cbn [negb]. f_equal.
      apply IH; [assumption|].
      intros x Hx Hl. apply (Hextra x Hx). now right.
    + assert (E : existsb (Analysis.eqb a)
                    (extra ++ a :: finished_analyses l statuses) = true).
      { apply existsb_analysis. apply in_or_app. right. now left. }
      rewrite E. cbn [negb].
      change (extra ++ a :: finished_analyses l statuses)
        with (extra ++ [a] ++ finished_analyses l statuses).
      rewrite app_assoc. apply IH; [assumption|].
      intros x Hx Hl. apply in_app_or in Hx as [Hx|[->|[]]].
      * apply (Hextra x Hx). now right.
      * contradiction.
Qed.

(** When no analysis is tracked twice and the pass returns, the analyses
    that are still tracked afterwards are exactly those whose probed status
    is [ProcessRunning], in their order. *)
Theorem running_analyses_stay_tracked st st' :
  NoDup (store st) ->
  update_charon_with_local_jobs_status env st = (st', Returned tt) ->
  store st' =
  running_analyses (store st) (probed_statuses (new_calls st st')).
Proof.
  intros Hnd H.
  apply update_charon_pass in H as (t & Hc & _ & _ & Hst & _ & Hret).
  destruct (Hret eq_refl) as [Hrem Hlen].
  rewrite (new_calls_of _ _ _ Hc), Hst, Hrem, remove_all_filter.
  apply (finished_removed_leaves_running _ Hnd _ [] Hlen).
  intros x [].
Qed.

End PassExtras.

(** ** Probes and separators *)

Ltac read_probes :=
  cbn [store calls]; repeat rewrite <- app_assoc; cbn [app];
  rewrite new_calls_app;
  cbn [probe_calls flat_map app].

Section ProbeExtras.

Variable env : Collaborators.

Lemma turn_probe_calls a st st' r :
  update_analysis env a st = (st', r) ->
  probe_calls (new_calls st st') = [] \/
  exists path,
    exit_code_path_of env a = Returned path /\
    probe_calls (new_calls st st') =
      [(status_type_of a,
        py_or_id (Analysis.process_id a) (Analysis.slurm_job_id a), path)].
Proof.
  intro H. unfold update_analysis in H. invert_run.
  all: try match goal with
  | H : remove_analysis _ ?s _ _ = _ |- _ =>
      unfold remove_analysis, tracking_remove, removed_from, ret in H;
      destruct s; cbn in H; injection H as <- <-
  end.
  all: read_probes; unfold exit_code_path_of; eauto.
Qed.

(** The identifier that a probe gets goes with the class it is called on:
    the job id on [JobStatus] when the analysis has no process id, and the
    process id on [ProcessStatus] when it has one other than 0. *)
Theorem probe_identifier_matches_class a st st' r ty id path :
  update_analysis env a st = (st', r) ->
  In (ty, id, path) (probe_calls (new_calls st st')) ->
  (Analysis.process_id a = None ->
   ty = JobStatus /\ id = Analysis.slurm_job_id a) /\
  (forall n, Analysis.process_id a = Some n -> n <> 0%Z ->
   ty = ProcessStatus /\ id = Some n).
Proof.
  intros H Hin.
  destruct (turn_probe_calls _ _ _ _ H) as [E|(p & _ & E)];
    rewrite E in Hin; [destruct Hin|].
  destruct Hin as [Heq|[]]. injection Heq as <- <- <-.
  unfold status_type_of, py_or_id. split.
  - intros ->. split; reflexivity.
  - intros n -> Hn. apply Z.eqb_neq in Hn. rewrite Hn. split; reflexivity.
Qed.

End ProbeExtras.

Section RepeatedSeparators.
Import PosixPath PosixPathFacts.









End RepeatedSeparators.

(** ** The further properties on sample inputs *)

Lemma project_names_are_path_names_witness :
  (forall s,
     In s (sample_names sample_project) <->
     exists q, In q sample_paths /\ sample_name (split_fastq_file_path q) = s)
  /\
  (forall s l,
     In l (libprep_names sample_project s) <->
     exists q, In q sample_paths /\
       sample_name (split_fastq_file_path q) = s /\
       libprep_name (split_fastq_file_path q) = l) /\
  (forall s l r,
     In r (seqrun_names sample_project s l) <->
     exists q, In q sample_paths /\
       sample_name (split_fastq_file_path q) = s /\
       libprep_name (split_fastq_file_path q) = l /\
       seqrun_name (split_fastq_file_path q) = r).
Proof.
  apply (project_names_are_path_names sample_paths sample_project).
  vm_compute. reflexivity.
Defined.

Lemma project_files_are_path_files_witness :
  fastq_file_names sample_project "S1" "LP1" "SR2" =
  files_under "S1" "LP1" "SR2" sample_paths.
Proof.
  apply (project_files_are_path_files sample_paths sample_project).
  vm_compute. reflexivity.
Defined.

Lemma project_names_have_no_separator_witness :
  PosixPath.no_sep (proj_name sample_project) = true /\
  (forall s, In s (sample_names sample_project) -> PosixPath.no_sep s = true)
  /\
  (forall s l,
     In l (libprep_names sample_project s) -> PosixPath.no_sep l = true) /\
  (forall s l r,
     In r (seqrun_names sample_project s l) -> PosixPath.no_sep r = true) /\
  (forall s l r f,
     In f (fastq_file_names sample_project s l r) ->
     PosixPath.no_sep f = true).
Proof.
  apply (project_names_have_no_separator sample_paths sample_project).
  vm_compute. reflexivity.
Defined.

Lemma bare_file_name_gives_empty_names_witness :
  split_fastq_file_path "a.fastq.gz" =
    mkPathParts "a.fastq.gz" "" "" "" "" "" "" "" "" "" "" /\
  _project_from_fastq_file_paths ["a.fastq.gz"] =
    Some (mkProject "" "" "" ""
            [mkSample "" ""
               [mkLibraryPrep "" "" [mkSeqRun "" "" ["a.fastq.gz"]]]]).
Proof.
  apply (bare_file_name_gives_empty_names "a.fastq.gz").
  vm_compute. reflexivity.
Defined.

Lemma project_has_unique_names_witness :
  NoDup (sample_names sample_project) /\
  (forall s, In s (proj_samples sample_project) ->
     NoDup (map lib_name (samp_libpreps s)) /\
     forall l, In l (samp_libpreps s) ->
       NoDup (map run_name (lib_seqruns l))).
Proof.
  apply (project_has_unique_names sample_paths sample_project).
  vm_compute. reflexivity.
Defined.

Lemma project_holds_one_file_per_path_witness :
  total_files sample_project = length sample_paths.
Proof.
  apply (project_holds_one_file_per_path sample_paths sample_project).
  vm_compute. reflexivity.
Defined.


Lemma published_status_is_translated_witness :
  let st := empty_state [analysis_pid] in
  let st' := fst (update_analysis finished_env analysis_pid st) in
  (pub_project_id sample_publish_call, pub_sample_id sample_publish_call) =
    target_of analysis_pid /\
  exists ps,
    probed_statuses (new_calls st st') = [ps] /\
    analysis_status_from_process_status finished_env ps =
      Returned (pub_status sample_publish_call).
Proof.
  intros st st'.
  apply (published_status_is_translated finished_env analysis_pid st st'
           (Returned tt)).
  - vm_compute. reflexivity.
  - vm_compute. left. reflexivity.
Defined.

Lemma published_scope_is_sample_scope_witness :
  let st := empty_state [analysis_pid] in
  let st' := fst (update_analysis finished_env analysis_pid st) in
  exists paths p,
    fastq_lists (new_calls st st') = [paths] /\
    _project_from_fastq_file_paths paths = Some p /\
    In (Analysis.sample_id analysis_pid) (sample_names p) /\
    pub_libpreps sample_publish_call =
      libprep_names p (Analysis.sample_id analysis_pid) /\
    pub_seqruns sample_publish_call =
      seqrun_scope p (Analysis.sample_id analysis_pid).
Proof.
  intros st st'.
  apply (published_scope_is_sample_scope finished_env analysis_pid st st'
           (Returned tt)).
  - vm_compute. reflexivity.
  - vm_compute. left. reflexivity.
Defined.

Lemma missing_sample_raises_IndexError_witness :
  let st := empty_state [analysis_other_sample] in
  let st' := fst (update_analysis finished_env analysis_other_sample st) in
  @Raised unit IndexError = Raised IndexError /\
  publish_calls (new_calls st st') = [] /\
  removals (new_calls st st') = [] /\
  store st' = store st.
Proof.
  intros st st'.
  apply (missing_sample_raises_IndexError finished_env analysis_other_sample
           st st' (Raised IndexError) [fastq_SR1; fastq_SR2]).
  - vm_compute. reflexivity.
  - vm_compute. reflexivity.
  - discriminate.
  - intros q [<-|[<-|[]]]; vm_compute; discriminate.
Defined.

Lemma no_fastq_files_raises_TypeError_witness :
  let env := sample_env FinishedSuccessfully [] (Returned tt) in
  let st := empty_state [analysis_pid] in
  let st' := fst (update_analysis env analysis_pid st) in
  @Raised unit TypeError = Raised TypeError /\
  publish_calls (new_calls st st') = [] /\
  removals (new_calls st st') = [] /\
  store st' = store st.
Proof.
  intros env st st'.
  apply (no_fastq_files_raises_TypeError env analysis_pid st st'
           (Raised TypeError)).
  - vm_compute. reflexivity.
  - vm_compute. reflexivity.
Defined.

Lemma charon_updated_once_per_analysis_witness :
  let env := mixed_env [fastq_SR1; fastq_SR2] in
  let st := empty_state [analysis_pid; analysis_job] in
  let st' := fst (update_charon_with_local_jobs_status env st) in
  let t := new_calls st st' in
  (exists rest, map target_of (store st) = publish_targets t ++ rest) /\
  (Returned tt = Returned tt ->
   publish_targets t = map target_of (store st) /\
   Forall2 (published_for env) (publish_calls t) (probed_statuses t)).
Proof.
  intros env st st'.
  apply (charon_updated_once_per_analysis env st st' (Returned tt)).
  vm_compute. reflexivity.
Defined.

Lemma tracking_store_only_shrinks_witness :
  let env := mixed_env [fastq_SR1; fastq_SR2] in
  let st := empty_state [analysis_pid; analysis_job] in
  let st' := fst (update_charon_with_local_jobs_status env st) in
  (forall x, In x (removals (new_calls st st')) -> In x (store st)) /\
  (forall x,
     In x (store st') <->
     In x (store st) /\ ~ In x (removals (new_calls st st'))).
Proof.
  intros env st st'.
  apply (tracking_store_only_shrinks env st st' (Returned tt)).
  vm_compute. reflexivity.
Defined.

Lemma running_analyses_stay_tracked_witness :
  let env := mixed_env [fastq_SR1; fastq_SR2] in
  let st := empty_state [analysis_pid; analysis_job] in
  let st' := fst (update_charon_with_local_jobs_status env st) in
  store st' =
  running_analyses (store st) (probed_statuses (new_calls st st')).
Proof.
  intros env st st'.
  apply (running_analyses_stay_tracked env st st').
  - repeat constructor; simpl; intuition discriminate.
  - vm_compute. reflexivity.
Defined.

Lemma probe_identifier_matches_class_witness :
  let st := empty_state [analysis_pid] in
  (Analysis.process_id analysis_pid = None ->
   ProcessStatus = JobStatus /\
   Some 1234%Z = Analysis.slurm_job_id analysis_pid) /\
  (forall n, Analysis.process_id analysis_pid = Some n -> n <> 0%Z ->
   ProcessStatus = ProcessStatus /\ Some 1234%Z = Some n).
Proof.
  intros st.
  apply (probe_identifier_matches_class finished_env analysis_pid st
           (fst (update_analysis finished_env analysis_pid st)) (Returned tt)
           ProcessStatus (Some 1234%Z) "/base/ANALYSIS/ProjA/S1.exit_code").
  - vm_compute. reflexivity.
  - vm_compute. left. reflexivity.
Defined.
